(** * collectd MySQL plugin (src/mysql.c): embedding and verified properties

    The plugin polls a MySQL server once per interval, turns rows of the
    server's status tables into typed metric values and raises
    notifications when the replication threads change state.

    The embedding follows the C source function by function.  Calls into
    libmysqlclient are answered by an explicit environment record, the
    values handed to [plugin_dispatch_values] and
    [plugin_dispatch_notification] are collected in lists, and the
    undefined behaviour of passing a NULL pointer to [atoll], [strcmp] or
    [strncmp] is the [None] of the option monad. *)

From Stdlib Require Import ZArith List String Ascii Bool Lia.
From Stdlib Require Decimal DecimalString DecimalPos DecimalN.
Import ListNotations.

Local Open Scope string_scope.
Local Open Scope list_scope.
Local Open Scope Z_scope.

(** ** The C library functions used by the plugin *)

Module CLib.

Definition code (c : ascii) : Z := Z.of_nat (nat_of_ascii c).

(** Only the sign of the result of the comparison functions is specified
    by C; the model returns -1, 0 or 1. *)
Definition char_diff (c d : ascii) : Z :=
  if code c <? code d then -1 else if code d <? code c then 1 else 0.

Fixpoint strcmp (a b : string) : Z :=
  match a, b with
  | EmptyString, EmptyString => 0
  | EmptyString, String _ _ => -1
  | String _ _, EmptyString => 1
  | String c a', String d b' =>
      if Ascii.eqb c d then strcmp a' b' else char_diff c d
  end.

Fixpoint strncmp (a b : string) (n : nat) {struct n} : Z :=
  match n with
  | O => 0
  | S n' =>
      match a, b with
      | EmptyString, EmptyString => 0
      | EmptyString, String _ _ => -1
      | String _ _, EmptyString => 1
      | String c a', String d b' =>
          if Ascii.eqb c d then strncmp a' b' n' else char_diff c d
      end
  end.

Definition tolower (c : ascii) : ascii :=
  if (65 <=? code c) && (code c <=? 90)
  then ascii_of_nat (nat_of_ascii c + 32)
  else c.

Fixpoint strcasecmp (a b : string) : Z :=
  match a, b with
  | EmptyString, EmptyString => 0
  | EmptyString, String _ _ => -1
  | String _ _, EmptyString => 1
  | String c a', String d b' =>
      if Ascii.eqb (tolower c) (tolower d)
      then strcasecmp a' b'
      else char_diff (tolower c) (tolower d)
  end.

(** The string with every upper-case letter replaced by its lower-case
    letter. *)
Fixpoint lowercase (s : string) : string :=
  match s with
  | EmptyString => EmptyString
  | String c s' => String (tolower c) (lowercase s')
  end.

Definition strlen (s : string) : nat := String.length s.

(** Pointer arithmetic [s + n] on a string of at least [n] characters. *)
Fixpoint advance (s : string) (n : nat) {struct n} : string :=
  match n, s with
  | S n', String _ s' => advance s' n'
  | _, _ => s
  end.

Definition isspace (c : ascii) : bool :=
  (code c =? 32) || ((9 <=? code c) && (code c <=? 13)).

Definition isdigit (c : ascii) : bool :=
  (48 <=? code c) && (code c <=? 57).

Fixpoint skip_space (s : string) : string :=
  match s with
  | String c s' => if isspace c then skip_space s' else s
  | EmptyString => s
  end.

(** The value of the longest prefix of decimal digits, [acc] being the
    value of the digits already read. *)
Fixpoint digits (s : string) (acc : Z) : Z :=
  match s with
  | String c s' =>
      if isdigit c then digits s' (10 * acc + (code c - 48)) else acc
  | EmptyString => acc
  end.

Definition LLONG_MAX : Z := 2 ^ 63 - 1.
Definition LLONG_MIN : Z := - 2 ^ 63.

(** [atoll]: optional white space, an optional sign, then decimal digits
    up to the first character that is not one; zero when there is no
    digit.  A value outside of [long long] is undefined in C; the model
    clamps it, as [strtoll] does. *)
Definition atoll (s : string) : Z :=
  match skip_space s with
  | String c r =>
      if Ascii.eqb c "-" then Z.max LLONG_MIN (- digits r 0)
      else if Ascii.eqb c "+" then Z.min LLONG_MAX (digits r 0)
      else Z.min LLONG_MAX (digits (String c r) 0)
  | EmptyString => 0
  end.

(** The decimal representation of a natural number. *)
Definition decimal (n : N) : string :=
  DecimalString.NilEmpty.string_of_uint (N.to_uint n).

Definition leading_digit (s : string) : bool :=
  match s with
  | String c _ => isdigit c
  | EmptyString => false
  end.

Fixpoint all_digits (s : string) : bool :=
  match s with
  | String c r => isdigit c && all_digits r
  | EmptyString => true
  end.

(** A decimal ASCII integer: an optional sign, then one or more decimal
    digits, and nothing else. *)
Definition decimal_integer (s : string) : bool :=
  match s with
  | String c r =>
      if Ascii.eqb c "-" || Ascii.eqb c "+"
      then leading_digit r && all_digits r
      else isdigit c && all_digits r
  | EmptyString => false
  end.

(** The strings on which [atoll] can perform no conversion: after the
    white space and the optional sign there is no decimal digit. *)
Definition no_conversion (s : string) : bool :=
  match skip_space s with
  | String c r =>
      if Ascii.eqb c "-" || Ascii.eqb c "+" then negb (leading_digit r)
      else negb (isdigit c)
  | EmptyString => true
  end.

(** Conversion of a [long long] to [unsigned long long], and of an
    [unsigned long long] to the signed 64-bit [derive_t]. *)
Definition to_ull (x : Z) : Z := x mod 2 ^ 64.

Definition to_ll (u : Z) : Z := if u <? 2 ^ 63 then u else u - 2 ^ 64.

End CLib.

Import CLib.

(** ** Data model *)

(** A [MYSQL *]: the identity of one session object of the client library. *)
Definition MYSQL : Type := nat.

(** [struct mysql_database_s].  A [char *] that may be NULL is an
    [option string]; [instance] is never NULL once the configuration has
    been read (asserted in [submit]). *)
Record mysql_database_t : Type := {
  instance : string;
  alias : option string;
  host : option string;
  user : option string;
  pass : option string;
  database : option string;
  key : option string;
  cert : option string;
  ca : option string;
  capath : option string;
  cipher : option string;
  socket : option string;
  port : Z;
  timeout : Z;
  primary_stats : bool;
  replica_stats : bool;
  innodb_stats : bool;
  wsrep_stats : bool;
  replica_notif : bool;
  replica_io_running : bool;
  replica_sql_running : bool;
  con : option MYSQL;
  is_connected : bool;
  mysql_version : Z
}.

Definition set_replica_io_running (db : mysql_database_t) (b : bool) :=
  {| instance := instance db; alias := alias db; host := host db;
     user := user db; pass := pass db; database := database db;
     key := key db; cert := cert db; ca := ca db; capath := capath db;
     cipher := cipher db; socket := socket db; port := port db;
     timeout := timeout db; primary_stats := primary_stats db;
     replica_stats := replica_stats db; innodb_stats := innodb_stats db;
     wsrep_stats := wsrep_stats db; replica_notif := replica_notif db;
     replica_io_running := b;
     replica_sql_running := replica_sql_running db;
     con := con db; is_connected := is_connected db;
     mysql_version := mysql_version db |}.

Definition set_replica_sql_running (db : mysql_database_t) (b : bool) :=
  {| instance := instance db; alias := alias db; host := host db;
     user := user db; pass := pass db; database := database db;
     key := key db; cert := cert db; ca := ca db; capath := capath db;
     cipher := cipher db; socket := socket db; port := port db;
     timeout := timeout db; primary_stats := primary_stats db;
     replica_stats := replica_stats db; innodb_stats := innodb_stats db;
     wsrep_stats := wsrep_stats db; replica_notif := replica_notif db;
     replica_io_running := replica_io_running db;
     replica_sql_running := b;
     con := con db; is_connected := is_connected db;
     mysql_version := mysql_version db |}.

(** The connection fields, written together by [getconnection]. *)
Definition set_connection (db : mysql_database_t)
    (c : option MYSQL) (connected : bool) (version : Z) :=
  {| instance := instance db; alias := alias db; host := host db;
     user := user db; pass := pass db; database := database db;
     key := key db; cert := cert db; ca := ca db; capath := capath db;
     cipher := cipher db; socket := socket db; port := port db;
     timeout := timeout db; primary_stats := primary_stats db;
     replica_stats := replica_stats db; innodb_stats := innodb_stats db;
     wsrep_stats := wsrep_stats db; replica_notif := replica_notif db;
     replica_io_running := replica_io_running db;
     replica_sql_running := replica_sql_running db;
     con := c; is_connected := connected;
     mysql_version := version |}.

(** A [gauge_t] is a [double].  The plugin only ever builds one from NAN,
    from an [unsigned long long], from a C truth value or with [atof];
    the model keeps the operand and leaves the floating-point conversion
    symbolic. *)
Inductive gauge_t : Type :=
| NAN
| gauge_of_ull (v : Z)
| gauge_of_bool (b : bool)
| atof (s : string).

Definition derive_t : Type := Z.

(** The union [value_t], as far as the plugin initialises it. *)
Inductive value_t : Type :=
| gauge (g : gauge_t)
| derive (d : derive_t).

(** The data-source kinds of plugin.h. *)
Inductive ds_type_t : Type :=
| DS_TYPE_COUNTER
| DS_TYPE_GAUGE
| DS_TYPE_DERIVE
| DS_TYPE_ABSOLUTE.

(** The fields of [value_list_t] that [submit] fills in. *)
Record value_list_t : Type := {
  vl_values : list value_t;
  vl_host : string;
  vl_plugin : string;
  vl_plugin_instance : string;
  vl_type : string;
  vl_type_instance : string
}.

Inductive severity_t : Type :=
| NOTIF_FAILURE
| NOTIF_WARNING
| NOTIF_OKAY.

Record notification_t : Type := {
  n_severity : severity_t;
  n_time : Z;
  n_message : string;
  n_host : string;
  n_plugin : string;
  n_plugin_instance : string;
  n_type : string;
  n_type_instance : string
}.

(** A row of a result: one cell per column, [None] for a NULL cell. *)
Definition MYSQL_ROW : Type := list (option string).

(** A stored result: what [mysql_num_fields] answers and the rows that
    successive calls of [mysql_fetch_row] hand out. *)
Record MYSQL_RES : Type := {
  num_fields : Z;
  rows : list MYSQL_ROW
}.

(** [row[i]]; a cell that is not there reads as NULL. *)
Definition cell (row : MYSQL_ROW) (i : nat) : option string :=
  nth i row None.

(** What the client library and the clock answer during one call of the
    read callback. *)
Record environment : Type := {
  mysql_ping : MYSQL -> Z;
  mysql_init : option MYSQL;
  mysql_real_connect : MYSQL -> bool;
  mysql_get_server_version : MYSQL -> Z;
  (** the stored result of a statement, [None] when [mysql_real_query]
      or [mysql_store_result] fails *)
  mysql_query : string -> option MYSQL_RES;
  cdtime : Z
}.

(** The calls that [getconnection] makes on session objects. *)
Inductive client_call : Type :=
| call_ping (h : MYSQL)
| call_close (h : MYSQL)
| call_init
| call_ssl_set (h : MYSQL)
| call_real_connect (h : MYSQL).

(** The local variables of [mysql_read] that collect values over the rows
    of the global status result. *)
Record read_acc : Type := {
  qcache_hits : derive_t;
  qcache_inserts : derive_t;
  qcache_not_cached : derive_t;
  qcache_lowmem_prunes : derive_t;
  qcache_queries_in_cache : gauge_t;
  threads_running : gauge_t;
  threads_connected : gauge_t;
  threads_cached : gauge_t;
  threads_created : derive_t;
  traffic_incoming : Z;
  traffic_outgoing : Z
}.

(** Their initialisers at the head of [mysql_read]. *)
Definition read_acc_init : read_acc :=
  {| qcache_hits := 0; qcache_inserts := 0; qcache_not_cached := 0;
     qcache_lowmem_prunes := 0; qcache_queries_in_cache := NAN;
     threads_running := NAN; threads_connected := NAN;
     threads_cached := NAN; threads_created := 0;
     traffic_incoming := 0; traffic_outgoing := 0 |}.

Definition set_qcache (a : read_acc)
    (h i n p : derive_t) (q : gauge_t) : read_acc :=
  {| qcache_hits := h; qcache_inserts := i; qcache_not_cached := n;
     qcache_lowmem_prunes := p; qcache_queries_in_cache := q;
     threads_running := threads_running a;
     threads_connected := threads_connected a;
     threads_cached := threads_cached a;
     threads_created := threads_created a;
     traffic_incoming := traffic_incoming a;
     traffic_outgoing := traffic_outgoing a |}.

Definition set_threads (a : read_acc)
    (r c k : gauge_t) (n : derive_t) : read_acc :=
  {| qcache_hits := qcache_hits a; qcache_inserts := qcache_inserts a;
     qcache_not_cached := qcache_not_cached a;
     qcache_lowmem_prunes := qcache_lowmem_prunes a;
     qcache_queries_in_cache := qcache_queries_in_cache a;
     threads_running := r; threads_connected := c;
     threads_cached := k; threads_created := n;
     traffic_incoming := traffic_incoming a;
     traffic_outgoing := traffic_outgoing a |}.

Definition set_traffic (a : read_acc) (rx tx : Z) : read_acc :=
  {| qcache_hits := qcache_hits a; qcache_inserts := qcache_inserts a;
     qcache_not_cached := qcache_not_cached a;
     qcache_lowmem_prunes := qcache_lowmem_prunes a;
     qcache_queries_in_cache := qcache_queries_in_cache a;
     threads_running := threads_running a;
     threads_connected := threads_connected a;
     threads_cached := threads_cached a;
     threads_created := threads_created a;
     traffic_incoming := rx; traffic_outgoing := tx |}.

(** One line of the [metrics] tables of [mysql_read_innodb_stats] and
    [mysql_read_wsrep_stats]: key, type, ds_type. *)
Definition metric_entry : Type := (string * string * ds_type_t)%type.

(** The scan [for (i = 0; metrics[i].key != NULL &&
    strcmp(metrics[i].key, key) != 0; i++)]: the first line whose key is
    [key], [None] when the scan stops at the terminating NULL line. *)
Fixpoint metrics_scan (metrics : list metric_entry) (key : string)
  : option metric_entry :=
  match metrics with
  | [] => None
  | m :: rest =>
      if strcmp (fst (fst m)) key =? 0 then Some m
      else metrics_scan rest key
  end.

(** The table of [mysql_read_innodb_stats], without its NULL line. *)
Definition innodb_metrics : list metric_entry :=
  [ ("metadata_mem_pool_size", "bytes", DS_TYPE_GAUGE);
    ("lock_deadlocks", "mysql_locks", DS_TYPE_DERIVE);
    ("lock_timeouts", "mysql_locks", DS_TYPE_DERIVE);
    ("lock_row_lock_current_waits", "mysql_locks", DS_TYPE_DERIVE);
    ("buffer_pool_size", "bytes", DS_TYPE_GAUGE);
    ("os_log_bytes_written", "operations", DS_TYPE_DERIVE);
    ("os_log_pending_fsyncs", "operations", DS_TYPE_DERIVE);
    ("os_log_pending_writes", "operations", DS_TYPE_DERIVE);
    ("trx_rseg_history_len", "gauge", DS_TYPE_GAUGE);
    ("adaptive_hash_searches", "operations", DS_TYPE_DERIVE);
    ("file_num_open_files", "gauge", DS_TYPE_GAUGE);
    ("ibuf_merges_insert", "operations", DS_TYPE_DERIVE);
    ("ibuf_merges_delete_mark", "operations", DS_TYPE_DERIVE);
    ("ibuf_merges_delete", "operations", DS_TYPE_DERIVE);
    ("ibuf_merges_discard_insert", "operations", DS_TYPE_DERIVE);
    ("ibuf_merges_discard_delete_mark", "operations", DS_TYPE_DERIVE);
    ("ibuf_merges_discard_delete", "operations", DS_TYPE_DERIVE);
    ("ibuf_merges_discard_merges", "operations", DS_TYPE_DERIVE);
    ("ibuf_size", "bytes", DS_TYPE_GAUGE);
    ("innodb_activity_count", "gauge", DS_TYPE_GAUGE);
    ("innodb_rwlock_s_spin_waits", "operations", DS_TYPE_DERIVE);
    ("innodb_rwlock_x_spin_waits", "operations", DS_TYPE_DERIVE);
    ("innodb_rwlock_s_spin_rounds", "operations", DS_TYPE_DERIVE);
    ("innodb_rwlock_x_spin_rounds", "operations", DS_TYPE_DERIVE);
    ("innodb_rwlock_s_os_waits", "operations", DS_TYPE_DERIVE);
    ("innodb_rwlock_x_os_waits", "operations", DS_TYPE_DERIVE);
    ("dml_reads", "operations", DS_TYPE_DERIVE);
    ("dml_inserts", "operations", DS_TYPE_DERIVE);
    ("dml_deletes", "operations", DS_TYPE_DERIVE);
    ("dml_updates", "operations", DS_TYPE_DERIVE) ].

(** The table of [mysql_read_wsrep_stats], without its NULL line. *)
Definition wsrep_metrics : list metric_entry :=
  [ ("wsrep_apply_oooe", "operations", DS_TYPE_DERIVE);
    ("wsrep_apply_oool", "operations", DS_TYPE_DERIVE);
    ("wsrep_causal_reads", "operations", DS_TYPE_DERIVE);
    ("wsrep_commit_oooe", "operations", DS_TYPE_DERIVE);
    ("wsrep_commit_oool", "operations", DS_TYPE_DERIVE);
    ("wsrep_flow_control_recv", "operations", DS_TYPE_DERIVE);
    ("wsrep_flow_control_sent", "operations", DS_TYPE_DERIVE);
    ("wsrep_flow_control_paused", "operations", DS_TYPE_DERIVE);
    ("wsrep_local_bf_aborts", "operations", DS_TYPE_DERIVE);
    ("wsrep_local_cert_failures", "operations", DS_TYPE_DERIVE);
    ("wsrep_local_commits", "operations", DS_TYPE_DERIVE);
    ("wsrep_local_replays", "operations", DS_TYPE_DERIVE);
    ("wsrep_received", "operations", DS_TYPE_DERIVE);
    ("wsrep_replicated", "operations", DS_TYPE_DERIVE);
    ("wsrep_received_bytes", "total_bytes", DS_TYPE_DERIVE);
    ("wsrep_replicated_bytes", "total_bytes", DS_TYPE_DERIVE);
    ("wsrep_apply_window", "gauge", DS_TYPE_GAUGE);
    ("wsrep_commit_window", "gauge", DS_TYPE_GAUGE);
    ("wsrep_cluster_size", "gauge", DS_TYPE_GAUGE);
    ("wsrep_cert_deps_distance", "gauge", DS_TYPE_GAUGE);
    ("wsrep_local_recv_queue", "queue_length", DS_TYPE_GAUGE);
    ("wsrep_local_send_queue", "queue_length", DS_TYPE_GAUGE) ].

(** How one branch of the [Innodb_] chains of [mysql_read] submits. *)
Inductive submit_kind : Type := by_gauge_submit | by_derive_submit.

(** A chain [if (strcmp (key, k1) == 0) ... else if (strcmp (key, k2) == 0)
    ...]: per branch the compared key, the submit function, the type and
    the type instance. *)
Definition chain : Type := list (string * (submit_kind * string * string)).

Fixpoint chain_select (c : chain) (key : string)
  : option (submit_kind * string * string) :=
  match c with
  | [] => None
  | (k, branch) :: rest =>
      if strcmp key k =? 0 then Some branch else chain_select rest key
  end.

(** The first chain of the [Innodb_] block ("buffer pool"). *)
Definition innodb_buffer_pool_chain : chain :=
  [ ("Innodb_buffer_pool_pages_data", (by_gauge_submit, "mysql_bpool_pages", "data"));
    ("Innodb_buffer_pool_pages_dirty", (by_gauge_submit, "mysql_bpool_pages", "dirty"));
    ("Innodb_buffer_pool_pages_flushed", (by_derive_submit, "mysql_bpool_counters", "pages_flushed"));
    ("Innodb_buffer_pool_pages_free", (by_gauge_submit, "mysql_bpool_pages", "free"));
    ("Innodb_buffer_pool_pages_misc", (by_gauge_submit, "mysql_bpool_pages", "misc"));
    ("Innodb_buffer_pool_pages_total", (by_gauge_submit, "mysql_bpool_pages", "total"));
    ("Innodb_buffer_pool_read_ahead_rnd", (by_derive_submit, "mysql_bpool_counters", "read_ahead_rnd"));
    ("Innodb_buffer_pool_read_ahead", (by_derive_submit, "mysql_bpool_counters", "read_ahead"));
    ("Innodb_buffer_pool_read_ahead_evicted", (by_derive_submit, "mysql_bpool_counters", "read_ahead_evicted"));
    ("Innodb_buffer_pool_read_requests", (by_derive_submit, "mysql_bpool_counters", "read_requests"));
    ("Innodb_buffer_pool_reads", (by_derive_submit, "mysql_bpool_counters", "reads"));
    ("Innodb_buffer_pool_wait_free", (by_derive_submit, "mysql_bpool_counters", "wait_free"));
    ("Innodb_buffer_pool_write_requests", (by_derive_submit, "mysql_bpool_counters", "write_requests"));
    ("Innodb_buffer_pool_bytes_data", (by_gauge_submit, "mysql_bpool_bytes", "data"));
    ("Innodb_buffer_pool_bytes_dirty", (by_gauge_submit, "mysql_bpool_bytes", "dirty")) ].

(** The second chain of the [Innodb_] block ("data" to "rows"). *)
Definition innodb_data_chain : chain :=
  [ ("Innodb_data_fsyncs", (by_derive_submit, "mysql_innodb_data", "fsyncs"));
    ("Innodb_data_read", (by_derive_submit, "mysql_innodb_data", "read"));
    ("Innodb_data_reads", (by_derive_submit, "mysql_innodb_data", "reads"));
    ("Innodb_data_writes", (by_derive_submit, "mysql_innodb_data", "writes"));
    ("Innodb_data_written", (by_derive_submit, "mysql_innodb_data", "written"));
    ("Innodb_dblwr_writes", (by_derive_submit, "mysql_innodb_dblwr", "writes"));
    ("Innodb_dblwr_pages_written", (by_derive_submit, "mysql_innodb_dblwr", "written"));
    ("Innodb_dblwr_page_size", (by_gauge_submit, "mysql_innodb_dblwr", "page_size"));
    ("Innodb_log_waits", (by_derive_submit, "mysql_innodb_log", "waits"));
    ("Innodb_log_write_requests", (by_derive_submit, "mysql_innodb_log", "write_requests"));
    ("Innodb_log_writes", (by_derive_submit, "mysql_innodb_log", "writes"));
    ("Innodb_os_log_fsyncs", (by_derive_submit, "mysql_innodb_log", "fsyncs"));
    ("Innodb_os_log_written", (by_derive_submit, "mysql_innodb_log", "written"));
    ("Innodb_pages_created", (by_derive_submit, "mysql_innodb_pages", "created"));
    ("Innodb_pages_read", (by_derive_submit, "mysql_innodb_pages", "read"));
    ("Innodb_pages_written", (by_derive_submit, "mysql_innodb_pages", "written"));
    ("Innodb_row_lock_time", (by_derive_submit, "mysql_innodb_row_lock", "time"));
    ("Innodb_row_lock_waits", (by_derive_submit, "mysql_innodb_row_lock", "waits"));
    ("Innodb_rows_deleted", (by_derive_submit, "mysql_innodb_rows", "deleted"));
    ("Innodb_rows_inserted", (by_derive_submit, "mysql_innodb_rows", "inserted"));
    ("Innodb_rows_read", (by_derive_submit, "mysql_innodb_rows", "read"));
    ("Innodb_rows_updated", (by_derive_submit, "mysql_innodb_rows", "updated")) ].

(** The statements of the four optional readers of [mysql_read]. *)
Inductive optional_reader : Type :=
| reader_innodb
| reader_primary
| reader_replica
| reader_wsrep.

Definition optional_reader_eqb (x y : optional_reader) : bool :=
  match x, y with
  | reader_innodb, reader_innodb => true
  | reader_primary, reader_primary => true
  | reader_replica, reader_replica => true
  | reader_wsrep, reader_wsrep => true
  | _, _ => false
  end.

(** The environment in which the statement [q] fails and everything else
    is as in [env]. *)
Definition fail_query (env : environment) (q : string) : environment :=
  {| mysql_ping := mysql_ping env;
     mysql_init := mysql_init env;
     mysql_real_connect := mysql_real_connect env;
     mysql_get_server_version := mysql_get_server_version env;
     mysql_query := fun s => if String.eqb s q then None else mysql_query env s;
     cdtime := cdtime env |}.

(** A row whose first two cells, the key and the value, are not NULL. *)
Definition has_key_and_value (row : MYSQL_ROW) : Prop :=
  exists k v rest, row = Some k :: Some v :: rest.

(** The rule for one replica thread: from the observed state, the stored
    flag before and after, and the severities and messages notified. *)
Definition flag_transition (running stored stored' : bool)
    (out : list (severity_t * string)) (warning okay : string) : Prop :=
  (running = false -> stored = true ->
   out = [(NOTIF_WARNING, warning)] /\ stored' = false) /\
  (running = true -> stored = false ->
   out = [(NOTIF_OKAY, okay)] /\ stored' = true) /\
  (running = stored -> out = [] /\ stored' = stored).

Definition severity_and_message (n : notification_t)
  : severity_t * string :=
  (n_severity n, n_message n).

(** ** Configuration *)

(** The configuration tree of liboconfig, as far as the plugin reads it:
    an item has a key, values and children; a value is a string, a number
    or a truth value.  The plugin itself looks at the kind of a value
    only. *)
Inductive oconfig_value_t : Type :=
| OCONFIG_TYPE_STRING (s : string)
| OCONFIG_TYPE_NUMBER (n : Z)
| OCONFIG_TYPE_BOOLEAN (b : bool).

Inductive oconfig_item_t : Type :=
| oconfig_item (item_key : string) (item_values : list oconfig_value_t)
    (item_children : list oconfig_item_t).

Definition ci_key (ci : oconfig_item_t) : string :=
  match ci with oconfig_item k _ _ => k end.

Definition ci_values (ci : oconfig_item_t) : list oconfig_value_t :=
  match ci with oconfig_item _ vs _ => vs end.

Definition ci_children (ci : oconfig_item_t) : list oconfig_item_t :=
  match ci with oconfig_item _ _ cs => cs end.

(** What [plugin_register_complex_read] is called with: the name of the
    callback and the instance handed to [mysql_read]. *)
Record registration : Type := {
  cb_name : string;
  cb_data : mysql_database_t
}.

(** The instance after [calloc] and the initialisations at the head of
    [mysql_config_database], with its name. *)
Definition db_initial (name : string) : mysql_database_t :=
  {| instance := name; alias := None; host := None; user := None;
     pass := None; database := None; key := None; cert := None;
     ca := None; capath := None; cipher := None; socket := None;
     port := 0; timeout := 0; primary_stats := false;
     replica_stats := false; innodb_stats := false; wsrep_stats := false;
     replica_notif := false; replica_io_running := true;
     replica_sql_running := true; con := None; is_connected := false;
     mysql_version := 0 |}.

Definition with_alias (db : mysql_database_t) (v : option string)
  : mysql_database_t :=
  {| instance := instance db; alias := v; host := host db; user := user db;
     pass := pass db; database := database db; key := key db;
     cert := cert db; ca := ca db; capath := capath db;
     cipher := cipher db; socket := socket db; port := port db;
     timeout := timeout db; primary_stats := primary_stats db;
     replica_stats := replica_stats db; innodb_stats := innodb_stats db;
     wsrep_stats := wsrep_stats db; replica_notif := replica_notif db;
     replica_io_running := replica_io_running db;
     replica_sql_running := replica_sql_running db; con := con db;
     is_connected := is_connected db; mysql_version := mysql_version db |}.

Definition with_host (db : mysql_database_t) (v : option string)
  : mysql_database_t :=
  {| instance := instance db; alias := alias db; host := v;
     user := user db; pass := pass db; database := database db;
     key := key db; cert := cert db; ca := ca db; capath := capath db;
     cipher := cipher db; socket := socket db; port := port db;
     timeout := timeout db; primary_stats := primary_stats db;
     replica_stats := replica_stats db; innodb_stats := innodb_stats db;
     wsrep_stats := wsrep_stats db; replica_notif := replica_notif db;
     replica_io_running := replica_io_running db;
     replica_sql_running := replica_sql_running db; con := con db;
     is_connected := is_connected db; mysql_version := mysql_version db |}.

Definition with_user (db : mysql_database_t) (v : option string)
  : mysql_database_t :=
  {| instance := instance db; alias := alias db; host := host db;
     user := v; pass := pass db; database := database db; key := key db;
     cert := cert db; ca := ca db; capath := capath db;
     cipher := cipher db; socket := socket db; port := port db;
     timeout := timeout db; primary_stats := primary_stats db;
     replica_stats := replica_stats db; innodb_stats := innodb_stats db;
     wsrep_stats := wsrep_stats db; replica_notif := replica_notif db;
     replica_io_running := replica_io_running db;
     replica_sql_running := replica_sql_running db; con := con db;
     is_connected := is_connected db; mysql_version := mysql_version db |}.

Definition with_pass (db : mysql_database_t) (v : option string)
  : mysql_database_t :=
  {| instance := instance db; alias := alias db; host := host db;
     user := user db; pass := v; database := database db; key := key db;
     cert := cert db; ca := ca db; capath := capath db;
     cipher := cipher db; socket := socket db; port := port db;
     timeout := timeout db; primary_stats := primary_stats db;
     replica_stats := replica_stats db; innodb_stats := innodb_stats db;
     wsrep_stats := wsrep_stats db; replica_notif := replica_notif db;
     replica_io_running := replica_io_running db;
     replica_sql_running := replica_sql_running db; con := con db;
     is_connected := is_connected db; mysql_version := mysql_version db |}.

Definition with_database (db : mysql_database_t) (v : option string)
  : mysql_database_t :=
  {| instance := instance db; alias := alias db; host := host db;
     user := user db; pass := pass db; database := v; key := key db;
     cert := cert db; ca := ca db; capath := capath db;
     cipher := cipher db; socket := socket db; port := port db;
     timeout := timeout db; primary_stats := primary_stats db;
     replica_stats := replica_stats db; innodb_stats := innodb_stats db;
     wsrep_stats := wsrep_stats db; replica_notif := replica_notif db;
     replica_io_running := replica_io_running db;
     replica_sql_running := replica_sql_running db; con := con db;
     is_connected := is_connected db; mysql_version := mysql_version db |}.

Definition with_key (db : mysql_database_t) (v : option string)
  : mysql_database_t :=
  {| instance := instance db; alias := alias db; host := host db;
     user := user db; pass := pass db; database := database db; key := v;
     cert := cert db; ca := ca db; capath := capath db;
     cipher := cipher db; socket := socket db; port := port db;
     timeout := timeout db; primary_stats := primary_stats db;
     replica_stats := replica_stats db; innodb_stats := innodb_stats db;
     wsrep_stats := wsrep_stats db; replica_notif := replica_notif db;
     replica_io_running := replica_io_running db;
     replica_sql_running := replica_sql_running db; con := con db;
     is_connected := is_connected db; mysql_version := mysql_version db |}.

Definition with_cert (db : mysql_database_t) (v : option string)
  : mysql_database_t :=
  {| instance := instance db; alias := alias db; host := host db;
     user := user db; pass := pass db; database := database db;
     key := key db; cert := v; ca := ca db; capath := capath db;
     cipher := cipher db; socket := socket db; port := port db;
     timeout := timeout db; primary_stats := primary_stats db;
     replica_stats := replica_stats db; innodb_stats := innodb_stats db;
     wsrep_stats := wsrep_stats db; replica_notif := replica_notif db;
     replica_io_running := replica_io_running db;
     replica_sql_running := replica_sql_running db; con := con db;
     is_connected := is_connected db; mysql_version := mysql_version db |}.

Definition with_ca (db : mysql_database_t) (v : option string)
  : mysql_database_t :=
  {| instance := instance db; alias := alias db; host := host db;
     user := user db; pass := pass db; database := database db;
     key := key db; cert := cert db; ca := v; capath := capath db;
     cipher := cipher db; socket := socket db; port := port db;
     timeout := timeout db; primary_stats := primary_stats db;
     replica_stats := replica_stats db; innodb_stats := innodb_stats db;
     wsrep_stats := wsrep_stats db; replica_notif := replica_notif db;
     replica_io_running := replica_io_running db;
     replica_sql_running := replica_sql_running db; con := con db;
     is_connected := is_connected db; mysql_version := mysql_version db |}.

Definition with_capath (db : mysql_database_t) (v : option string)
  : mysql_database_t :=
  {| instance := instance db; alias := alias db; host := host db;
     user := user db; pass := pass db; database := database db;
     key := key db; cert := cert db; ca := ca db; capath := v;
     cipher := cipher db; socket := socket db; port := port db;
     timeout := timeout db; primary_stats := primary_stats db;
     replica_stats := replica_stats db; innodb_stats := innodb_stats db;
     wsrep_stats := wsrep_stats db; replica_notif := replica_notif db;
     replica_io_running := replica_io_running db;
     replica_sql_running := replica_sql_running db; con := con db;
     is_connected := is_connected db; mysql_version := mysql_version db |}.

Definition with_cipher (db : mysql_database_t) (v : option string)
  : mysql_database_t :=
  {| instance := instance db; alias := alias db; host := host db;
     user := user db; pass := pass db; database := database db;
     key := key db; cert := cert db; ca := ca db; capath := capath db;
     cipher := v; socket := socket db; port := port db;
     timeout := timeout db; primary_stats := primary_stats db;
     replica_stats := replica_stats db; innodb_stats := innodb_stats db;
     wsrep_stats := wsrep_stats db; replica_notif := replica_notif db;
     replica_io_running := replica_io_running db;
     replica_sql_running := replica_sql_running db; con := con db;
     is_connected := is_connected db; mysql_version := mysql_version db |}.

Definition with_socket (db : mysql_database_t) (v : option string)
  : mysql_database_t :=
  {| instance := instance db; alias := alias db; host := host db;
     user := user db; pass := pass db; database := database db;
     key := key db; cert := cert db; ca := ca db; capath := capath db;
     cipher := cipher db; socket := v; port := port db;
     timeout := timeout db; primary_stats := primary_stats db;
     replica_stats := replica_stats db; innodb_stats := innodb_stats db;
     wsrep_stats := wsrep_stats db; replica_notif := replica_notif db;
     replica_io_running := replica_io_running db;
     replica_sql_running := replica_sql_running db; con := con db;
     is_connected := is_connected db; mysql_version := mysql_version db |}.

Definition with_port (db : mysql_database_t) (v : Z)
  : mysql_database_t :=
  {| instance := instance db; alias := alias db; host := host db;
     user := user db; pass := pass db; database := database db;
     key := key db; cert := cert db; ca := ca db; capath := capath db;
     cipher := cipher db; socket := socket db; port := v;
     timeout := timeout db; primary_stats := primary_stats db;
     replica_stats := replica_stats db; innodb_stats := innodb_stats db;
     wsrep_stats := wsrep_stats db; replica_notif := replica_notif db;
     replica_io_running := replica_io_running db;
     replica_sql_running := replica_sql_running db; con := con db;
     is_connected := is_connected db; mysql_version := mysql_version db |}.

Definition with_timeout (db : mysql_database_t) (v : Z)
  : mysql_database_t :=
  {| instance := instance db; alias := alias db; host := host db;
     user := user db; pass := pass db; database := database db;
     key := key db; cert := cert db; ca := ca db; capath := capath db;
     cipher := cipher db; socket := socket db; port := port db;
     timeout := v; primary_stats := primary_stats db;
     replica_stats := replica_stats db; innodb_stats := innodb_stats db;
     wsrep_stats := wsrep_stats db; replica_notif := replica_notif db;
     replica_io_running := replica_io_running db;
     replica_sql_running := replica_sql_running db; con := con db;
     is_connected := is_connected db; mysql_version := mysql_version db |}.

Definition with_primary_stats (db : mysql_database_t) (v : bool)
  : mysql_database_t :=
  {| instance := instance db; alias := alias db; host := host db;
     user := user db; pass := pass db; database := database db;
     key := key db; cert := cert db; ca := ca db; capath := capath db;
     cipher := cipher db; socket := socket db; port := port db;
     timeout := timeout db; primary_stats := v;
     replica_stats := replica_stats db; innodb_stats := innodb_stats db;
     wsrep_stats := wsrep_stats db; replica_notif := replica_notif db;
     replica_io_running := replica_io_running db;
     replica_sql_running := replica_sql_running db; con := con db;
     is_connected := is_connected db; mysql_version := mysql_version db |}.

Definition with_replica_stats (db : mysql_database_t) (v : bool)
  : mysql_database_t :=
  {| instance := instance db; alias := alias db; host := host db;
     user := user db; pass := pass db; database := database db;
     key := key db; cert := cert db; ca := ca db; capath := capath db;
     cipher := cipher db; socket := socket db; port := port db;
     timeout := timeout db; primary_stats := primary_stats db;
     replica_stats := v; innodb_stats := innodb_stats db;
     wsrep_stats := wsrep_stats db; replica_notif := replica_notif db;
     replica_io_running := replica_io_running db;
     replica_sql_running := replica_sql_running db; con := con db;
     is_connected := is_connected db; mysql_version := mysql_version db |}.

Definition with_innodb_stats (db : mysql_database_t) (v : bool)
  : mysql_database_t :=
  {| instance := instance db; alias := alias db; host := host db;
     user := user db; pass := pass db; database := database db;
     key := key db; cert := cert db; ca := ca db; capath := capath db;
     cipher := cipher db; socket := socket db; port := port db;
     timeout := timeout db; primary_stats := primary_stats db;
     replica_stats := replica_stats db; innodb_stats := v;
     wsrep_stats := wsrep_stats db; replica_notif := replica_notif db;
     replica_io_running := replica_io_running db;
     replica_sql_running := replica_sql_running db; con := con db;
     is_connected := is_connected db; mysql_version := mysql_version db |}.

Definition with_wsrep_stats (db : mysql_database_t) (v : bool)
  : mysql_database_t :=
  {| instance := instance db; alias := alias db; host := host db;
     user := user db; pass := pass db; database := database db;
     key := key db; cert := cert db; ca := ca db; capath := capath db;
     cipher := cipher db; socket := socket db; port := port db;
     timeout := timeout db; primary_stats := primary_stats db;
     replica_stats := replica_stats db; innodb_stats := innodb_stats db;
     wsrep_stats := v; replica_notif := replica_notif db;
     replica_io_running := replica_io_running db;
     replica_sql_running := replica_sql_running db; con := con db;
     is_connected := is_connected db; mysql_version := mysql_version db |}.

Definition with_replica_notif (db : mysql_database_t) (v : bool)
  : mysql_database_t :=
  {| instance := instance db; alias := alias db; host := host db;
     user := user db; pass := pass db; database := database db;
     key := key db; cert := cert db; ca := ca db; capath := capath db;
     cipher := cipher db; socket := socket db; port := port db;
     timeout := timeout db; primary_stats := primary_stats db;
     replica_stats := replica_stats db; innodb_stats := innodb_stats db;
     wsrep_stats := wsrep_stats db; replica_notif := v;
     replica_io_running := replica_io_running db;
     replica_sql_running := replica_sql_running db; con := con db;
     is_connected := is_connected db; mysql_version := mysql_version db |}.

(** The option names of a Database block. *)
Definition database_options : list string :=
  [ "Alias"; "Host"; "User"; "Password"; "Port"; "Socket"; "Database";
    "SSLKey"; "SSLCert"; "SSLCA"; "SSLCAPath"; "SSLCipher";
    "ConnectTimeout"; "MasterStats"; "SlaveStats"; "SlaveNotifications";
    "InnodbStats"; "WsrepStats" ].

(** A key that is one of the option names, in any letter case. *)
Definition known_option (k : string) : bool :=
  existsb (fun name => strcasecmp name k =? 0) database_options.

(** The daemon's configuration helpers and constants that
    [mysql_config_database] and [mysql_config] use, outside of mysql.c.
    Each helper takes the item and the present contents of the variable
    it writes and gives its status and the contents afterwards
    ([cf_util_get_port_number] gives the port or a negative status);
    [ssnprintf] is given for one [%s] argument: format, argument and
    buffer size to buffer contents.  [EINVAL] is the constant of
    errno.h. *)
Record config_helpers : Type := {
  cf_util_get_string : oconfig_item_t -> option string -> Z * option string;
  cf_util_get_port_number : oconfig_item_t -> Z;
  cf_util_get_int : oconfig_item_t -> Z -> Z * Z;
  cf_util_get_boolean : oconfig_item_t -> bool -> Z * bool;
  ssnprintf : string -> string -> nat -> string;
  EINVAL : Z
}.

(** ** Example data *)

Module Sample.

(** An instance as [mysql_config_database] leaves it: both replica flags
    set, no session object yet. *)
Definition db (db_alias db_host : option string) (notif : bool)
  : mysql_database_t :=
  {| instance := "db1"; alias := db_alias; host := db_host;
     user := Some "collectd"; pass := None; database := None;
     key := None; cert := None; ca := None; capath := None;
     cipher := None; socket := None; port := 3306; timeout := 0;
     primary_stats := true; replica_stats := true; innodb_stats := true;
     wsrep_stats := true; replica_notif := notif;
     replica_io_running := true; replica_sql_running := true;
     con := None; is_connected := false; mysql_version := 0 |}.

(** A bounded copy that keeps the first [n - 1] characters. *)
Definition bounded_copy (s : string) (n : nat) : string :=
  substring 0 (n - 1) s.

(** A row of SHOW SLAVE STATUS with 33 columns, given the cells of
    Slave_IO_Running and Slave_SQL_Running. *)
Definition slave_row (io sql : option string) : MYSQL_ROW :=
  repeat (Some "x") 6 ++ [Some "1500"] ++ repeat (Some "x") 3
  ++ [io; sql] ++ repeat (Some "x") 9 ++ [Some "1400"]
  ++ repeat (Some "x") 10 ++ [None].

Definition global_status : MYSQL_RES :=
  {| num_fields := 2;
     rows := [ [Some "Com_select"; Some "5"];
               [Some "Qcache_hits"; Some "7"];
               [Some "Bytes_sent"; Some "1024"];
               [Some "Uptime"; Some "abc"] ] |}.

Definition wsrep_status : MYSQL_RES :=
  {| num_fields := 2;
     rows := [ [Some "wsrep_cluster_size"; Some "3"];
               [Some "wsrep_received"; Some "12"] ] |}.

(** A server of version 5.7.30 that accepts the connection and answers
    every statement of the plugin. *)
Definition env : environment :=
  {| mysql_ping := fun _ => 0;
     mysql_init := Some 1%nat;
     mysql_real_connect := fun _ => true;
     mysql_get_server_version := fun _ => 50730;
     mysql_query := fun s =>
       if String.eqb s "SHOW GLOBAL STATUS" then Some global_status
       else if String.eqb s "SHOW MASTER STATUS" then
         Some {| num_fields := 5; rows := [[Some "bin.000001"; Some "154"]] |}
       else if String.eqb s "SHOW SLAVE STATUS" then
         Some {| num_fields := 33;
                 rows := [slave_row (Some "No") (Some "Yes")] |}
       else if String.eqb s "SHOW GLOBAL STATUS LIKE 'wsrep_%'" then
         Some wsrep_status
       else if String.eqb s (String.append
                 "SELECT name, count, type FROM information_schema.innodb_metrics "
                 "WHERE status = 'enabled'") then
         Some {| num_fields := 3;
                 rows := [[Some "dml_reads"; Some "9"; Some "counter"]] |}
       else None;
     cdtime := 1000 |}.

(** The same server refusing the handshake. *)
Definition env_refusing : environment :=
  {| mysql_ping := mysql_ping env;
     mysql_init := mysql_init env;
     mysql_real_connect := fun _ => false;
     mysql_get_server_version := mysql_get_server_version env;
     mysql_query := mysql_query env;
     cdtime := cdtime env |}.

(** The same server answering SHOW SLAVE STATUS with 16 columns only. *)
Definition env_narrow : environment :=
  {| mysql_ping := mysql_ping env;
     mysql_init := mysql_init env;
     mysql_real_connect := mysql_real_connect env;
     mysql_get_server_version := mysql_get_server_version env;
     mysql_query := fun s =>
       if String.eqb s "SHOW SLAVE STATUS" then
         Some {| num_fields := 16; rows := [repeat (Some "x") 16] |}
       else mysql_query env s;
     cdtime := cdtime env |}.

(** Configuration helpers that accept a single value of the kind asked
    for. *)
Definition helpers : config_helpers :=
  {| cf_util_get_string := fun ci old =>
       match ci_values ci with
       | [OCONFIG_TYPE_STRING s] => (0, Some s)
       | _ => (-1, old)
       end;
     cf_util_get_port_number := fun ci =>
       match ci_values ci with
       | [OCONFIG_TYPE_NUMBER n] =>
           if (0 <? n) && (n <=? 65535) then n else -1
       | _ => -1
       end;
     cf_util_get_int := fun ci old =>
       match ci_values ci with
       | [OCONFIG_TYPE_NUMBER n] => (0, n)
       | _ => (-1, old)
       end;
     cf_util_get_boolean := fun ci old =>
       match ci_values ci with
       | [OCONFIG_TYPE_BOOLEAN b] => (0, b)
       | _ => (-1, old)
       end;
     ssnprintf := fun _ arg n => bounded_copy (String.append "mysql-" arg) n;
     EINVAL := 22 |}.

(** A Database block with two options, and one with a misspelt option. *)
Definition database_block : oconfig_item_t :=
  oconfig_item "Database" [OCONFIG_TYPE_STRING "db1"]
    [ oconfig_item "Host" [OCONFIG_TYPE_STRING "10.0.0.5"] [];
      oconfig_item "SLAVENOTIFICATIONS" [OCONFIG_TYPE_BOOLEAN true] [] ].

Definition misspelt_block : oconfig_item_t :=
  oconfig_item "database" [OCONFIG_TYPE_STRING "db2"]
    [ oconfig_item "Hots" [OCONFIG_TYPE_STRING "10.0.0.6"] [] ].

Definition plugin_block : oconfig_item_t :=
  oconfig_item "Plugin" [OCONFIG_TYPE_STRING "mysql"]
    [ misspelt_block;
      oconfig_item "Interval" [OCONFIG_TYPE_NUMBER 10] [];
      database_block ].

(** The instance that [database_block] configures. *)
Definition configured : mysql_database_t :=
  with_replica_notif (with_host (db_initial "db1") (Some "10.0.0.5")) true.

(** [db] after a connection to [env] as session object 1. *)
Definition connected : mysql_database_t :=
  set_connection (db None None true) (Some 1%nat) true 50730.

End Sample.

(** ** The functions of the plugin *)

Section Plugin.

(** From the daemon, outside of mysql.c: the global [hostname_g], the
    bounded string copy [sstrncpy] (source string and buffer size to
    buffer contents) and the size [DATA_MAX_NAME_LEN] of the name buffers
    of [value_list_t] and [notification_t]. *)
Variable hostname_g : string.
Variable sstrncpy : string -> nat -> string.
Variable DATA_MAX_NAME_LEN : nat.

(** The part of [getconnection] from [db->is_connected = false] on;
    [calls] are the library calls made before. *)
Definition getconnection_reconnect (env : environment)
    (db : mysql_database_t) (calls : list client_call)
  : mysql_database_t * option MYSQL * list client_call :=
  let closing :=
    match con db with
    | Some old => [call_close old]
    | None => []
    end in
  match mysql_init env with
  | None =>
      (set_connection db None false (mysql_version db), None,
       calls ++ closing ++ [call_init])
  | Some h =>
      let calls' :=
        calls ++ closing ++ [call_init; call_ssl_set h; call_real_connect h] in
      if mysql_real_connect env h
      then (set_connection db (Some h) true (mysql_get_server_version env h),
            Some h, calls')
      else (set_connection db (Some h) false (mysql_version db), None, calls')
  end.

(** [getconnection]: the instance afterwards, the returned pointer and the
    library calls made.  A connected instance without a session object
    would hand NULL to [mysql_ping]. *)
Definition getconnection (env : environment) (db : mysql_database_t)
  : option (mysql_database_t * option MYSQL * list client_call) :=
  if is_connected db then
    match con db with
    | None => None
    | Some h =>
        if mysql_ping env h =? 0
        then Some (db, Some h, [call_ping h])
        else Some (getconnection_reconnect env db [call_ping h])
    end
  else Some (getconnection_reconnect env db []).

(** [set_host]: the contents of [buf] afterwards. *)
Definition set_host (db : mysql_database_t) (buflen : nat) : string :=
  match alias db with
  | Some a => sstrncpy a buflen
  | None =>
      match host db with
      | None => sstrncpy hostname_g buflen
      | Some h =>
          if (strcmp "" h =? 0) || (strcmp "127.0.0.1" h =? 0)
             || (strcmp "localhost" h =? 0)
          then sstrncpy hostname_g buflen
          else sstrncpy h buflen
      end
  end.

(** [submit]: the value list handed to [plugin_dispatch_values]. *)
Definition submit (type : string) (type_instance : option string)
    (values : list value_t) (db : mysql_database_t) : value_list_t :=
  {| vl_values := values;
     vl_host := set_host db DATA_MAX_NAME_LEN;
     vl_plugin := sstrncpy "mysql" DATA_MAX_NAME_LEN;
     vl_plugin_instance := sstrncpy (instance db) DATA_MAX_NAME_LEN;
     vl_type := sstrncpy type DATA_MAX_NAME_LEN;
     vl_type_instance :=
       match type_instance with
       | Some ti => sstrncpy ti DATA_MAX_NAME_LEN
       | None => ""
       end |}.

Definition gauge_submit (type : string) (type_instance : option string)
    (value : gauge_t) (db : mysql_database_t) : value_list_t :=
  submit type type_instance [gauge value] db.

Definition derive_submit (type : string) (type_instance : option string)
    (value : derive_t) (db : mysql_database_t) : value_list_t :=
  submit type type_instance [derive value] db.

Definition traffic_submit (rx tx : derive_t) (db : mysql_database_t)
  : value_list_t :=
  submit "mysql_octets" None [derive rx; derive tx] db.

Definition exec_query (env : environment) (c : MYSQL) (query : string)
  : option MYSQL_RES :=
  mysql_query env query.

(** [mysql_read_primary_stats]: the return value and the values
    dispatched. *)
Definition mysql_read_primary_stats (env : environment)
    (db : mysql_database_t) (c : MYSQL)
  : option (Z * list value_list_t) :=
  match exec_query env c "SHOW MASTER STATUS" with
  | None => Some (-1, [])
  | Some res =>
      match rows res with
      | [] => Some (-1, [])
      | row :: _ =>
          if num_fields res <? 2 then Some (-1, [])
          else
            match cell row 1 with
            | None => None
            | Some s =>
                let position := to_ull (atoll s) in
                Some (0, [derive_submit "mysql_log_position"
                            (Some "master-bin") (to_ll position) db])
            end
      end
  end.

(** The column numbers of SHOW SLAVE STATUS. *)
Definition READ_MASTER_LOG_POS_IDX : nat := 6.
Definition SLAVE_IO_RUNNING_IDX : nat := 10.
Definition SLAVE_SQL_RUNNING_IDX : nat := 11.
Definition EXEC_MASTER_LOG_POS_IDX : nat := 21.
Definition SECONDS_BEHIND_MASTER_IDX : nat := 32.

(** [(p != NULL) && (strcasecmp (p, "yes") == 0)] *)
Definition is_yes (p : option string) : bool :=
  match p with
  | Some s => strcasecmp s "yes" =? 0
  | None => false
  end.

(** [(p == NULL) || (strcasecmp (p, "yes") != 0)] *)
Definition is_not_yes (p : option string) : bool :=
  match p with
  | Some s => negb (strcasecmp s "yes" =? 0)
  | None => true
  end.

(** The block [if (db->replica_stats)] of [mysql_read_replica_stats]. *)
Definition replica_stats_block (db : mysql_database_t) (row : MYSQL_ROW)
  : option (list value_list_t) :=
  if replica_stats db then
    match cell row READ_MASTER_LOG_POS_IDX,
          cell row EXEC_MASTER_LOG_POS_IDX with
    | Some rd, Some ex =>
        Some
          ([ gauge_submit "bool" (Some "slave-sql-running")
               (gauge_of_bool (is_yes (cell row SLAVE_SQL_RUNNING_IDX))) db;
             gauge_submit "bool" (Some "slave-io-running")
               (gauge_of_bool (is_yes (cell row SLAVE_IO_RUNNING_IDX))) db;
             derive_submit "mysql_log_position" (Some "slave-read")
               (to_ll (to_ull (atoll rd))) db;
             derive_submit "mysql_log_position" (Some "slave-exec")
               (to_ll (to_ull (atoll ex))) db ]
           ++ match cell row SECONDS_BEHIND_MASTER_IDX with
              | Some s => [gauge_submit "time_offset" None (atof s) db]
              | None => []
              end)
    | _, _ => None
    end
  else Some [].

(** The notification [n] of [mysql_read_replica_stats] at the moment it is
    dispatched: its initialiser, the host and plugin instance, and the
    severity and message set just before. *)
Definition notification (env : environment) (db : mysql_database_t)
    (severity : severity_t) (message : string) : notification_t :=
  {| n_severity := severity;
     n_time := cdtime env;
     n_message := message;
     n_host := set_host db DATA_MAX_NAME_LEN;
     n_plugin := "mysql";
     n_plugin_instance := sstrncpy (instance db) DATA_MAX_NAME_LEN;
     n_type := "time_offset";
     n_type_instance := "" |}.

(** The block [if (db->replica_notif)] of [mysql_read_replica_stats]:
    the instance afterwards and the notifications dispatched. *)
Definition replica_notif_block (env : environment)
    (db : mysql_database_t) (row : MYSQL_ROW)
  : mysql_database_t * list notification_t :=
  if replica_notif db then
    let io := cell row SLAVE_IO_RUNNING_IDX in
    let sql := cell row SLAVE_SQL_RUNNING_IDX in
    let '(db1, out1) :=
      if is_not_yes io && replica_io_running db then
        (set_replica_io_running db false,
         [notification env db NOTIF_WARNING
            "replica I/O thread not started or not connected to primary"])
      else if is_yes io && negb (replica_io_running db) then
        (set_replica_io_running db true,
         [notification env db NOTIF_OKAY
            "replica I/O thread started and connected to primary"])
      else (db, []) in
    let '(db2, out2) :=
      if is_not_yes sql && replica_sql_running db1 then
        (set_replica_sql_running db1 false,
         [notification env db1 NOTIF_WARNING
            "replica SQL thread not started"])
      else if is_yes sql && negb (replica_sql_running db1) then
        (set_replica_sql_running db1 true,
         [notification env db1 NOTIF_OKAY "replica SQL thread started"])
      else (db1, []) in
    (db2, out1 ++ out2)
  else (db, []).

(** [mysql_read_replica_stats]: the return value, the instance
    afterwards, the values and the notifications dispatched. *)
Definition mysql_read_replica_stats (env : environment)
    (db : mysql_database_t) (c : MYSQL)
  : option (Z * mysql_database_t * list value_list_t * list notification_t) :=
  match exec_query env c "SHOW SLAVE STATUS" with
  | None => Some (-1, db, [], [])
  | Some res =>
      match rows res with
      | [] => Some (-1, db, [], [])
      | row :: _ =>
          if num_fields res <? 33 then Some (-1, db, [], [])
          else
            match replica_stats_block db row with
            | None => None
            | Some vals =>
                let '(db', notifs) := replica_notif_block env db row in
                Some (0, db', vals, notifs)
            end
      end
  end.

(** Running a loop body over the rows that [mysql_fetch_row] hands out,
    collecting the dispatched values. *)
Fixpoint each_row (body : MYSQL_ROW -> option (list value_list_t))
    (rs : list MYSQL_ROW) : option (list value_list_t) :=
  match rs with
  | [] => Some []
  | row :: rest =>
      match body row with
      | None => None
      | Some out =>
          match each_row body rest with
          | None => None
          | Some outs => Some (out ++ outs)
          end
      end
  end.

(** The body of the [while] loop of [mysql_read_innodb_stats]. *)
Definition innodb_stats_row (db : mysql_database_t) (row : MYSQL_ROW)
  : option (list value_list_t) :=
  match cell row 0, cell row 1 with
  | Some key, Some v =>
      let val := to_ull (atoll v) in
      match metrics_scan innodb_metrics key with
      | None => Some []
      | Some (_, type, ds_type) =>
          match ds_type with
          | DS_TYPE_COUNTER =>
              Some [derive_submit type (Some key) (to_ll val) db]
          | DS_TYPE_GAUGE =>
              Some [gauge_submit type (Some key) (gauge_of_ull val) db]
          | DS_TYPE_DERIVE =>
              Some [derive_submit type (Some key) (to_ll val) db]
          | DS_TYPE_ABSOLUTE => Some []
          end
      end
  | _, _ => None
  end.

Definition innodb_metrics_query (version : Z) : string :=
  if version >=? 100500
  then "SELECT name, count, type FROM information_schema.innodb_metrics WHERE enabled"
  else "SELECT name, count, type FROM information_schema.innodb_metrics WHERE status = 'enabled'".

Definition mysql_read_innodb_stats (env : environment)
    (db : mysql_database_t) (c : MYSQL)
  : option (Z * list value_list_t) :=
  match exec_query env c (innodb_metrics_query (mysql_version db)) with
  | None => Some (-1, [])
  | Some res =>
      match each_row (innodb_stats_row db) (rows res) with
      | None => None
      | Some out => Some (0, out)
      end
  end.

(** The body of the [while] loop of [mysql_read_wsrep_stats]. *)
Definition wsrep_stats_row (db : mysql_database_t) (row : MYSQL_ROW)
  : option (list value_list_t) :=
  match cell row 0, cell row 1 with
  | Some key, Some v =>
      let val := to_ull (atoll v) in
      match metrics_scan wsrep_metrics key with
      | None => Some []
      | Some (_, type, ds_type) =>
          match ds_type with
          | DS_TYPE_GAUGE =>
              Some [gauge_submit type (Some key) (gauge_of_ull val) db]
          | DS_TYPE_DERIVE =>
              Some [derive_submit type (Some key) (to_ll val) db]
          | _ => Some []
          end
      end
  | _, _ => None
  end.

(** [mysql_read_wsrep_stats].  The row fetched for the test that the
    result is not empty is the first row of the result; the loop starts
    with the next call of [mysql_fetch_row]. *)
Definition mysql_read_wsrep_stats (env : environment)
    (db : mysql_database_t) (c : MYSQL)
  : option (Z * list value_list_t) :=
  match exec_query env c "SHOW GLOBAL STATUS LIKE 'wsrep_%'" with
  | None => Some (-1, [])
  | Some res =>
      match rows res with
      | [] => Some (-1, [])
      | _ :: rest =>
          match each_row (wsrep_stats_row db) rest with
          | None => None
          | Some out => Some (0, out)
          end
      end
  end.

(** [strncmp (key, prefix, strlen (prefix)) == 0] *)
Definition has_prefix (key prefix : string) : bool :=
  strncmp key prefix (strlen prefix) =? 0.

(** One branch of an [Innodb_] chain, taken. *)
Definition chain_submit (branch : option (submit_kind * string * string))
    (val : Z) (db : mysql_database_t) : list value_list_t :=
  match branch with
  | Some (by_gauge_submit, type, ti) =>
      [gauge_submit type (Some ti) (gauge_of_ull val) db]
  | Some (by_derive_submit, type, ti) =>
      [derive_submit type (Some ti) (to_ll val) db]
  | None => []
  end.

(** The body of the [while] loop of [mysql_read]: the local variables
    afterwards and the values dispatched. *)
Definition status_row (db : mysql_database_t) (row : MYSQL_ROW)
    (a : read_acc) : option (read_acc * list value_list_t) :=
  match cell row 0, cell row 1 with
  | Some key, Some v =>
      let val := to_ull (atoll v) in
      Some
        (if has_prefix key "Com_" then
           if val =? 0 then (a, [])
           else if negb (has_prefix key "Com_stmt_") then
             (a, [derive_submit "mysql_commands"
                    (Some (advance key (strlen "Com_"))) (to_ll val) db])
           else (a, [])
         else if has_prefix key "Handler_" then
           if val =? 0 then (a, [])
           else
             (a, [derive_submit "mysql_handler"
                    (Some (advance key (strlen "Handler_"))) (to_ll val) db])
         else if has_prefix key "Qcache_" then
           if strcmp key "Qcache_hits" =? 0 then
             (set_qcache a (to_ll val) (qcache_inserts a)
                (qcache_not_cached a) (qcache_lowmem_prunes a)
                (qcache_queries_in_cache a), [])
           else if strcmp key "Qcache_inserts" =? 0 then
             (set_qcache a (qcache_hits a) (to_ll val)
                (qcache_not_cached a) (qcache_lowmem_prunes a)
                (qcache_queries_in_cache a), [])
           else if strcmp key "Qcache_not_cached" =? 0 then
             (set_qcache a (qcache_hits a) (qcache_inserts a)
                (to_ll val) (qcache_lowmem_prunes a)
                (qcache_queries_in_cache a), [])
           else if strcmp key "Qcache_lowmem_prunes" =? 0 then
             (set_qcache a (qcache_hits a) (qcache_inserts a)
                (qcache_not_cached a) (to_ll val)
                (qcache_queries_in_cache a), [])
           else if strcmp key "Qcache_queries_in_cache" =? 0 then
             (set_qcache a (qcache_hits a) (qcache_inserts a)
                (qcache_not_cached a) (qcache_lowmem_prunes a)
                (gauge_of_ull val), [])
           else (a, [])
         else if has_prefix key "Bytes_" then
           if strcmp key "Bytes_received" =? 0 then
             (set_traffic a (to_ull (traffic_incoming a + val))
                (traffic_outgoing a), [])
           else if strcmp key "Bytes_sent" =? 0 then
             (set_traffic a (traffic_incoming a)
                (to_ull (traffic_outgoing a + val)), [])
           else (a, [])
         else if has_prefix key "Threads_" then
           if strcmp key "Threads_running" =? 0 then
             (set_threads a (gauge_of_ull val) (threads_connected a)
                (threads_cached a) (threads_created a), [])
           else if strcmp key "Threads_connected" =? 0 then
             (set_threads a (threads_running a) (gauge_of_ull val)
                (threads_cached a) (threads_created a), [])
           else if strcmp key "Threads_cached" =? 0 then
             (set_threads a (threads_running a) (threads_connected a)
                (gauge_of_ull val) (threads_created a), [])
           else if strcmp key "Threads_created" =? 0 then
             (set_threads a (threads_running a) (threads_connected a)
                (threads_cached a) (to_ll val), [])
           else (a, [])
         else if has_prefix key "Table_locks_" then
           (a, [derive_submit "mysql_locks"
                  (Some (advance key (strlen "Table_locks_"))) (to_ll val) db])
         else if innodb_stats db && has_prefix key "Innodb_" then
           (a, chain_submit (chain_select innodb_buffer_pool_chain key) val db
               ++ chain_submit (chain_select innodb_data_chain key) val db)
         else if has_prefix key "Select_" then
           (a, [derive_submit "mysql_select"
                  (Some (advance key (strlen "Select_"))) (to_ll val) db])
         else if has_prefix key "Sort_" then
           if strcmp key "Sort_merge_passes" =? 0 then
             (a, [derive_submit "mysql_sort_merge_passes" None (to_ll val) db])
           else if strcmp key "Sort_rows" =? 0 then
             (a, [derive_submit "mysql_sort_rows" None (to_ll val) db])
           else if strcmp key "Sort_range" =? 0 then
             (a, [derive_submit "mysql_sort" (Some "range") (to_ll val) db])
           else if strcmp key "Sort_scan" =? 0 then
             (a, [derive_submit "mysql_sort" (Some "scan") (to_ll val) db])
           else (a, [])
         else if has_prefix key "Slow_queries" then
           (a, [derive_submit "mysql_slow_queries" None (to_ll val) db])
         else if strcmp key "Uptime" =? 0 then
           (a, [gauge_submit "uptime" None (gauge_of_ull val) db])
         else if strcmp key "Questions" =? 0 then
           (a, [gauge_submit "questions" None (gauge_of_ull val) db])
         else (a, []))
  | _, _ => None
  end.

(** The [while] loop of [mysql_read] over the rows of the result. *)
Fixpoint status_rows (db : mysql_database_t) (rs : list MYSQL_ROW)
    (a : read_acc) : option (read_acc * list value_list_t) :=
  match rs with
  | [] => Some (a, [])
  | row :: rest =>
      match status_row db row a with
      | None => None
      | Some (a1, out) =>
          match status_rows db rest a1 with
          | None => None
          | Some (a2, outs) => Some (a2, out ++ outs)
          end
      end
  end.

(** The block after the loop that submits the query cache values. *)
Definition qcache_block (db : mysql_database_t) (a : read_acc)
  : list value_list_t :=
  if negb (qcache_hits a =? 0) || negb (qcache_inserts a =? 0)
     || negb (qcache_not_cached a =? 0)
     || negb (qcache_lowmem_prunes a =? 0)
  then
    [ derive_submit "cache_result" (Some "qcache-hits") (qcache_hits a) db;
      derive_submit "cache_result" (Some "qcache-inserts")
        (qcache_inserts a) db;
      derive_submit "cache_result" (Some "qcache-not_cached")
        (qcache_not_cached a) db;
      derive_submit "cache_result" (Some "qcache-prunes")
        (qcache_lowmem_prunes a) db;
      gauge_submit "cache_size" (Some "qcache")
        (qcache_queries_in_cache a) db ]
  else [].

(** The block after the loop that submits the thread values. *)
Definition threads_block (db : mysql_database_t) (a : read_acc)
  : list value_list_t :=
  if negb (threads_created a =? 0) then
    [ gauge_submit "threads" (Some "running") (threads_running a) db;
      gauge_submit "threads" (Some "connected") (threads_connected a) db;
      gauge_submit "threads" (Some "cached") (threads_cached a) db;
      derive_submit "total_threads" (Some "created") (threads_created a) db ]
  else [].

(** The statement [mysql_read] sends for the global status. *)
Definition global_status_query (version : Z) : string :=
  if version >=? 50002 then "SHOW GLOBAL STATUS" else "SHOW STATUS".

(** What one call of [mysql_read] leaves behind. *)
Record read_result : Type := {
  ret : Z;
  db_after : mysql_database_t;
  dispatched : list value_list_t;
  notified : list notification_t;
  library_calls : list client_call
}.

(** The four optional readers at the end of [mysql_read], each called
    under its condition and with its return value dropped: the values
    dispatched (and, for the replica reader, the instance afterwards and
    the notifications). *)
Definition innodb_part (env : environment) (db : mysql_database_t)
    (c : MYSQL) : option (list value_list_t) :=
  if (mysql_version db >=? 50600) && innodb_stats db then
    match mysql_read_innodb_stats env db c with
    | None => None
    | Some (_, out) => Some out
    end
  else Some [].

Definition primary_part (env : environment) (db : mysql_database_t)
    (c : MYSQL) : option (list value_list_t) :=
  if primary_stats db then
    match mysql_read_primary_stats env db c with
    | None => None
    | Some (_, out) => Some out
    end
  else Some [].

Definition replica_part (env : environment) (db : mysql_database_t)
    (c : MYSQL)
  : option (mysql_database_t * list value_list_t * list notification_t) :=
  if replica_stats db || replica_notif db then
    match mysql_read_replica_stats env db c with
    | None => None
    | Some (_, db', out, notifs) => Some (db', out, notifs)
    end
  else Some (db, [], []).

Definition wsrep_part (env : environment) (db : mysql_database_t)
    (c : MYSQL) : option (list value_list_t) :=
  if wsrep_stats db then
    match mysql_read_wsrep_stats env db c with
    | None => None
    | Some (_, out) => Some out
    end
  else Some [].

(** [mysql_read], the read callback of one instance. *)
Definition mysql_read (env : environment) (db : mysql_database_t)
  : option read_result :=
  match getconnection env db with
  | None => None
  | Some (db0, None, calls) =>
      Some {| ret := -1; db_after := db0; dispatched := [];
              notified := []; library_calls := calls |}
  | Some (db0, Some c, calls) =>
      match exec_query env c (global_status_query (mysql_version db0)) with
      | None =>
          Some {| ret := -1; db_after := db0; dispatched := [];
                  notified := []; library_calls := calls |}
      | Some res =>
          match status_rows db0 (rows res) read_acc_init with
          | None => None
          | Some (a, out_rows) =>
              let out_main :=
                out_rows ++ qcache_block db0 a ++ threads_block db0 a
                ++ [traffic_submit (to_ll (traffic_incoming a))
                      (to_ll (traffic_outgoing a)) db0] in
              match innodb_part env db0 c with
              | None => None
              | Some out_innodb =>
                  match primary_part env db0 c with
                  | None => None
                  | Some out_primary =>
                      match replica_part env db0 c with
                      | None => None
                      | Some (db1, out_replica, notifs) =>
                          match wsrep_part env db1 c with
                          | None => None
                          | Some out_wsrep =>
                              Some {| ret := 0; db_after := db1;
                                      dispatched :=
                                        out_main ++ out_innodb ++ out_primary
                                        ++ out_replica ++ out_wsrep;
                                      notified := notifs;
                                      library_calls := calls |}
                          end
                      end
                  end
              end
          end
      end
  end.

(** The statement that each optional reader sends. *)
Definition optional_statement (version : Z) (which : optional_reader)
  : string :=
  match which with
  | reader_innodb => innodb_metrics_query version
  | reader_primary => "SHOW MASTER STATUS"
  | reader_replica => "SHOW SLAVE STATUS"
  | reader_wsrep => "SHOW GLOBAL STATUS LIKE 'wsrep_%'"
  end.

(** The values of reader [which], unless it is the reader that failed. *)
Definition unless_failed (failed which : optional_reader)
    (out : list value_list_t) : list value_list_t :=
  if optional_reader_eqb failed which then [] else out.

(** [mysql_database_free]: the library calls made while the instance is
    released. *)
Definition mysql_database_free (db : mysql_database_t) : list client_call :=
  match con db with
  | Some h => [call_close h]
  | None => []
  end.

(** The instance through successive calls of [getconnection], one
    environment per call, and all the library calls made. *)
Fixpoint getconnection_cycles (envs : list environment)
    (db : mysql_database_t)
  : option (mysql_database_t * list client_call) :=
  match envs with
  | [] => Some (db, [])
  | env :: rest =>
      match getconnection env db with
      | None => None
      | Some (db1, _, calls) =>
          match getconnection_cycles rest db1 with
          | None => None
          | Some (db2, calls') => Some (db2, calls ++ calls')
          end
      end
  end.

Definition is_close (c : client_call) : bool :=
  match c with call_close _ => true | _ => false end.

Definition is_ssl_set (c : client_call) : bool :=
  match c with call_ssl_set _ => true | _ => false end.

Definition is_init (c : client_call) : bool :=
  match c with call_init => true | _ => false end.

(** The number of calls of a trace that satisfy [f]. *)
Definition count_calls (f : client_call -> bool) (calls : list client_call)
  : nat :=
  List.length (filter f calls).

(** The sum of the values of the rows whose key is [name]. *)
Fixpoint sum_of_rows (name : string) (rs : list MYSQL_ROW) : Z :=
  match rs with
  | [] => 0
  | row :: rest =>
      match cell row 0, cell row 1 with
      | Some k, Some v =>
          if String.eqb k name then to_ull (atoll v) + sum_of_rows name rest
          else sum_of_rows name rest
      | _, _ => sum_of_rows name rest
      end
  end.

(** The keys to which the loop of [mysql_read] reacts at all. *)
Definition recognised_key (innodb : bool) (key : string) : bool :=
  has_prefix key "Com_" || has_prefix key "Handler_"
  || has_prefix key "Qcache_" || has_prefix key "Bytes_"
  || has_prefix key "Threads_" || has_prefix key "Table_locks_"
  || (innodb && has_prefix key "Innodb_") || has_prefix key "Select_"
  || has_prefix key "Sort_" || has_prefix key "Slow_queries"
  || String.eqb key "Uptime" || String.eqb key "Questions".

(** Two instances that differ at most in their replica flags. *)
Definition same_but_replica_flags (db db' : mysql_database_t) : Prop :=
  set_replica_sql_running (set_replica_io_running db' true) true
  = set_replica_sql_running (set_replica_io_running db true) true.

(** The number of session objects an instance holds: one or none. *)
Definition held (db : mysql_database_t) : nat :=
  match con db with
  | Some _ => 1%nat
  | None => 0%nat
  end.

(** The number of rows whose key is a key of the table [metrics]. *)
Fixpoint rows_in_table (metrics : list metric_entry) (rs : list MYSQL_ROW)
  : nat :=
  match rs with
  | [] => 0%nat
  | row :: rest =>
      match cell row 0 with
      | Some k =>
          match metrics_scan metrics k with
          | Some _ => S (rows_in_table metrics rest)
          | None => rows_in_table metrics rest
          end
      | None => rows_in_table metrics rest
      end
  end.

(** The kind of the one value of a value list: gauge or derive. *)
Definition is_gauge_value (vl : value_list_t) : bool :=
  match vl_values vl with
  | [gauge _] => true
  | _ => false
  end.

(** The value of the last row whose key is [name], if there is one. *)
Fixpoint last_value (name : string) (rs : list MYSQL_ROW) : option Z :=
  match rs with
  | [] => None
  | row :: rest =>
      match last_value name rest with
      | Some v => Some v
      | None =>
          match cell row 0, cell row 1 with
          | Some k, Some v =>
              if String.eqb k name then Some (to_ull (atoll v)) else None
          | _, _ => None
          end
      end
  end.

(** The number of values a value list carries. *)
Definition values_len (vl : value_list_t) : nat := List.length (vl_values vl).

(** The body of the loop of [mysql_config_database] up to the test of
    [status]: the status and the instance after the option [child]. *)
Definition config_option (cf : config_helpers) (db : mysql_database_t)
    (child : oconfig_item_t)
  : Z * mysql_database_t :=
  let k := ci_key child in
  if strcasecmp "Alias" k =? 0 then
    let '(status, v) := cf_util_get_string cf child (alias db) in
    (status, with_alias db v)
  else if strcasecmp "Host" k =? 0 then
    let '(status, v) := cf_util_get_string cf child (host db) in
    (status, with_host db v)
  else if strcasecmp "User" k =? 0 then
    let '(status, v) := cf_util_get_string cf child (user db) in
    (status, with_user db v)
  else if strcasecmp "Password" k =? 0 then
    let '(status, v) := cf_util_get_string cf child (pass db) in
    (status, with_pass db v)
  else if strcasecmp "Port" k =? 0 then
    let status := cf_util_get_port_number cf child in
    if status >? 0 then (0, with_port db status) else (status, db)
  else if strcasecmp "Socket" k =? 0 then
    let '(status, v) := cf_util_get_string cf child (socket db) in
    (status, with_socket db v)
  else if strcasecmp "Database" k =? 0 then
    let '(status, v) := cf_util_get_string cf child (database db) in
    (status, with_database db v)
  else if strcasecmp "SSLKey" k =? 0 then
    let '(status, v) := cf_util_get_string cf child (key db) in
    (status, with_key db v)
  else if strcasecmp "SSLCert" k =? 0 then
    let '(status, v) := cf_util_get_string cf child (cert db) in
    (status, with_cert db v)
  else if strcasecmp "SSLCA" k =? 0 then
    let '(status, v) := cf_util_get_string cf child (ca db) in
    (status, with_ca db v)
  else if strcasecmp "SSLCAPath" k =? 0 then
    let '(status, v) := cf_util_get_string cf child (capath db) in
    (status, with_capath db v)
  else if strcasecmp "SSLCipher" k =? 0 then
    let '(status, v) := cf_util_get_string cf child (cipher db) in
    (status, with_cipher db v)
  else if strcasecmp "ConnectTimeout" k =? 0 then
    let '(status, v) := cf_util_get_int cf child (timeout db) in
    (status, with_timeout db v)
  else if strcasecmp "MasterStats" k =? 0 then
    let '(status, v) := cf_util_get_boolean cf child (primary_stats db) in
    (status, with_primary_stats db v)
  else if strcasecmp "SlaveStats" k =? 0 then
    let '(status, v) := cf_util_get_boolean cf child (replica_stats db) in
    (status, with_replica_stats db v)
  else if strcasecmp "SlaveNotifications" k =? 0 then
    let '(status, v) := cf_util_get_boolean cf child (replica_notif db) in
    (status, with_replica_notif db v)
  else if strcasecmp "InnodbStats" k =? 0 then
    let '(status, v) := cf_util_get_boolean cf child (innodb_stats db) in
    (status, with_innodb_stats db v)
  else if strcasecmp "WsrepStats" k =? 0 then
    let '(status, v) := cf_util_get_boolean cf child (wsrep_stats db) in
    (status, with_wsrep_stats db v)
  else (-1, db).

(** The loop of [mysql_config_database] over the options, left at the
    first option whose status is not zero. *)
Fixpoint config_options (cf : config_helpers) (db : mysql_database_t)
    (children : list oconfig_item_t) : Z * mysql_database_t :=
  match children with
  | [] => (0, db)
  | child :: rest =>
      let '(status, db') := config_option cf db child in
      if status =? 0 then config_options cf db' rest else (status, db')
  end.

(** [mysql_config_database]: the return value and the registration made,
    if any; [None] when the assertion on the instance name fails.
    [calloc] is taken to succeed. *)
Definition mysql_config_database (cf : config_helpers)
    (ci : oconfig_item_t)
  : option (Z * option registration) :=
  match ci_values ci with
  | [OCONFIG_TYPE_STRING _] =>
      let '(status, name) := cf_util_get_string cf ci None in
      if negb (status =? 0) then Some (status, None)
      else
        match name with
        | None => None
        | Some n =>
            let '(status', db) :=
              config_options cf (db_initial n) (ci_children ci) in
            if status' =? 0 then
              Some (0, Some {| cb_name :=
                                 ssnprintf cf "mysql-%s" (instance db)
                                   DATA_MAX_NAME_LEN;
                               cb_data := db |})
            else Some (-1, None)
        end
  | _ => Some (-1, None)
  end.

(** The loop of [mysql_config] over the children of the plugin block:
    the registrations made, in order. *)
Fixpoint config_blocks (cf : config_helpers)
    (children : list oconfig_item_t)
  : option (list registration) :=
  match children with
  | [] => Some []
  | child :: rest =>
      if strcasecmp "Database" (ci_key child) =? 0 then
        match mysql_config_database cf child with
        | None => None
        | Some (_, made) =>
            match config_blocks cf rest with
            | None => None
            | Some regs =>
                Some (match made with
                      | Some rg => rg :: regs
                      | None => regs
                      end)
            end
        end
      else config_blocks cf rest
  end.

(** [mysql_config]: the return value and the registrations made. *)
Definition mysql_config (cf : config_helpers)
    (ci : option oconfig_item_t)
  : option (Z * list registration) :=
  match ci with
  | None => Some (EINVAL cf, [])
  | Some item =>
      match config_blocks cf (ci_children item) with
      | None => None
      | Some regs => Some (0, regs)
      end
  end.

(** ** Facts about the C library functions *)

Lemma char_diff_nonzero (c d : ascii) :
  Ascii.eqb c d = false -> char_diff c d <> 0.
Proof.
  intros Hne. unfold char_diff, code.
  destruct (Z.ltb_spec (Z.of_nat (nat_of_ascii c)) (Z.of_nat (nat_of_ascii d)));
    [discriminate|].
  destruct (Z.ltb_spec (Z.of_nat (nat_of_ascii d)) (Z.of_nat (nat_of_ascii c)));
    [discriminate|].
  exfalso. apply Ascii.eqb_neq in Hne. apply Hne.
  rewrite <- (ascii_nat_embedding c), <- (ascii_nat_embedding d).
  f_equal. lia.
Qed.

Lemma strcmp_zero (a b : string) : strcmp a b = 0 <-> a = b.
Proof.
  revert b. induction a as [|c a IH]; intros [|d b]; simpl;
    try (split; [discriminate | discriminate]); try tauto.
  destruct (Ascii.eqb c d) eqn:E.
  - apply Ascii.eqb_eq in E. subst d. rewrite IH.
    split; [intros ->; reflexivity | intros [= ->]; reflexivity].
  - split.
    + intros H. exfalso. exact (char_diff_nonzero _ _ E H).
    + intros [= -> _]. rewrite Ascii.eqb_refl in E. discriminate.
Qed.

Lemma strcasecmp_zero (a b : string) :
  strcasecmp a b = 0 <-> lowercase a = lowercase b.
Proof.
  revert b. induction a as [|c a IH]; intros [|d b]; simpl;
    try (split; [discriminate | discriminate]); try tauto.
  destruct (Ascii.eqb (tolower c) (tolower d)) eqn:E.
  - apply Ascii.eqb_eq in E. rewrite E, IH.
    split; [intros ->; reflexivity | intros [= ->]; reflexivity].
  - split.
    + intros H. exfalso. exact (char_diff_nonzero _ _ E H).
    + intros [= Hc _]. rewrite Hc, Ascii.eqb_refl in E. discriminate.
Qed.

Lemma strcmp_eqb (a b : string) : (strcmp a b =? 0) = String.eqb a b.
Proof.
  destruct (String.eqb_spec a b) as [->|Hne].
  - apply Z.eqb_eq, strcmp_zero. reflexivity.
  - apply Z.eqb_neq. intros H. apply Hne, strcmp_zero, H.
Qed.

(** [strncmp] over the length of [p] is zero exactly on the strings that
    start with [p], and [advance] then yields the rest. *)
Lemma has_prefix_app (p t : string) : has_prefix (p ++ t) p = true.
Proof.
  unfold has_prefix, strlen. apply Z.eqb_eq.
  induction p as [|c p IH]; simpl; [reflexivity|].
  rewrite Ascii.eqb_refl. exact IH.
Qed.




Lemma to_ll_zero (u : Z) : 0 <= u < 2 ^ 64 -> (to_ll u = 0 <-> u = 0).
Proof.
  intros Hu. unfold to_ll. destruct (Z.ltb_spec u (2 ^ 63)); lia.
Qed.

Lemma to_ull_range (x : Z) : 0 <= to_ull x < 2 ^ 64.
Proof. unfold to_ull. apply Z.mod_pos_bound. lia. Qed.

(** ** Statement selection *)

(** C6: the global status statement depends on the recorded server
    version only: below 50002 it is the legacy SHOW STATUS, from 50002 on
    it is SHOW GLOBAL STATUS, and the boundary version 50002 itself selects
    SHOW GLOBAL STATUS.  The recorded version is the one the server
    reported when [getconnection] established the connection. *)
Theorem global_status_query_cutoff (version : Z) :
  (version < 50002 -> global_status_query version = "SHOW STATUS") /\
  (50002 <= version -> global_status_query version = "SHOW GLOBAL STATUS") /\
  global_status_query 50002 = "SHOW GLOBAL STATUS" /\
  (forall env db db' h calls,
     is_connected db = false ->
     getconnection env db = Some (db', Some h, calls) ->
     mysql_version db' = mysql_get_server_version env h).
Proof.
  unfold global_status_query. repeat split.
  - intros H. destruct (Z.geb_spec version 50002); [lia | reflexivity].
  - intros H. destruct (Z.geb_spec version 50002); [reflexivity | lia].
  - intros env db db' h calls Hc. unfold getconnection. rewrite Hc.
    unfold getconnection_reconnect.
    destruct (mysql_init env) as [h'|]; [|discriminate].
    destruct (mysql_real_connect env h'); [|discriminate].
    intros [= <- <- _]. reflexivity.
Qed.

(** ** Host names *)

Lemma set_host_alias (db : mysql_database_t) (n : nat) (a : string) :
  alias db = Some a -> set_host db n = sstrncpy a n.
Proof. unfold set_host. intros ->. reflexivity. Qed.

Lemma set_host_default (db : mysql_database_t) (n : nat) :
  alias db = None ->
  host db = None \/ host db = Some "" \/ host db = Some "127.0.0.1"
  \/ host db = Some "localhost" ->
  set_host db n = sstrncpy hostname_g n.
Proof.
  unfold set_host. intros -> [-> | [-> | [-> | ->]]]; reflexivity.
Qed.

Lemma set_host_configured (db : mysql_database_t) (n : nat) (h : string) :
  alias db = None -> host db = Some h ->
  h <> "" -> h <> "127.0.0.1" -> h <> "localhost" ->
  set_host db n = sstrncpy h n.
Proof.
  unfold set_host. intros -> -> H1 H2 H3.
  rewrite !strcmp_eqb.
  destruct (String.eqb_spec "" h); [congruence|].
  destruct (String.eqb_spec "127.0.0.1" h); [congruence|].
  destruct (String.eqb_spec "localhost" h); [congruence|].
  reflexivity.
Qed.

(** C7: every value list and every notification of an instance carries
    the host that [set_host] resolves: the alias when one is configured;
    otherwise the daemon's [hostname_g] when the host is unset, empty,
    127.0.0.1 or localhost; otherwise the configured host (each copied
    with [sstrncpy] into the name buffer).  An instance with an empty
    host and no alias therefore reports under [hostname_g]. *)
Theorem host_label_resolution (env : environment) (db : mysql_database_t)
    (type : string) (type_instance : option string) (values : list value_t)
    (severity : severity_t) (message : string) :
  let label := vl_host (submit type type_instance values db) in
  n_host (notification env db severity message) = label /\
  (forall a, alias db = Some a -> label = sstrncpy a DATA_MAX_NAME_LEN) /\
  (alias db = None ->
   host db = None \/ host db = Some "" \/ host db = Some "127.0.0.1"
   \/ host db = Some "localhost" ->
   label = sstrncpy hostname_g DATA_MAX_NAME_LEN) /\
  (forall h, alias db = None -> host db = Some h ->
   h <> "" -> h <> "127.0.0.1" -> h <> "localhost" ->
   label = sstrncpy h DATA_MAX_NAME_LEN) /\
  (alias db = None -> host db = Some "" ->
   label = sstrncpy hostname_g DATA_MAX_NAME_LEN).
Proof.
  simpl. repeat split.
  - intros a Ha. apply set_host_alias, Ha.
  - intros Ha Hh. apply set_host_default; assumption.
  - intros h Ha Hh H1 H2 H3. apply set_host_configured; assumption.
  - intros Ha Hh. apply set_host_default; auto.
Qed.

(** ** Classification of the rows of the global status *)



(** C4: with the loop variables as the loop over one global status
    result leaves them, the query cache block dispatches something exactly
    when one of qcache_hits, qcache_inserts, qcache_not_cached and
    qcache_lowmem_prunes is not zero, and what it dispatches then is
    five value lists, the four derive values followed by the gauge,
    whichever of the four are zero. *)
Theorem qcache_batch (db : mysql_database_t) (rs : list MYSQL_ROW)
    (a : read_acc) (out : list value_list_t) :
  status_rows db rs read_acc_init = Some (a, out) ->
  let nonzero :=
    qcache_hits a <> 0 \/ qcache_inserts a <> 0
    \/ qcache_not_cached a <> 0 \/ qcache_lowmem_prunes a <> 0 in
  (qcache_block db a <> [] <-> nonzero) /\
  (nonzero ->
   List.length (qcache_block db a) = 5%nat /\
   map vl_values (qcache_block db a) =
     [ [derive (qcache_hits a)]; [derive (qcache_inserts a)];
       [derive (qcache_not_cached a)]; [derive (qcache_lowmem_prunes a)];
       [gauge (qcache_queries_in_cache a)] ]).
Proof.
  intros _ nonzero. subst nonzero. unfold qcache_block.
  destruct (Z.eqb_spec (qcache_hits a) 0) as [H1|H1];
    destruct (Z.eqb_spec (qcache_inserts a) 0) as [H2|H2];
    destruct (Z.eqb_spec (qcache_not_cached a) 0) as [H3|H3];
    destruct (Z.eqb_spec (qcache_lowmem_prunes a) 0) as [H4|H4]; simpl;
    (split; [split; [try discriminate; try tauto | intros; try discriminate; tauto]
            | intros; try tauto; split; reflexivity]).
Qed.

(** ** Values that do not parse *)

Lemma digits_no_leading_digit (s : string) (acc : Z) :
  leading_digit s = false -> digits s acc = acc.
Proof. destruct s as [|c s]; simpl; [reflexivity | intros ->; reflexivity]. Qed.

Lemma atoll_no_conversion (v : string) :
  no_conversion v = true -> atoll v = 0.
Proof.
  unfold no_conversion, atoll.
  destruct (skip_space v) as [|c r]; [reflexivity|].
  destruct (Ascii.eqb c "-"); simpl.
  - intros H. apply negb_true_iff in H.
    rewrite (digits_no_leading_digit _ _ H). reflexivity.
  - destruct (Ascii.eqb c "+"); simpl; intros H; apply negb_true_iff in H.
    + rewrite (digits_no_leading_digit _ _ H). reflexivity.
    + rewrite H. reflexivity.
Qed.

Lemma atoll_zero_string : atoll "0" = 0.
Proof. reflexivity. Qed.

(** Reading a string of decimal digits, most significant digit first. *)
Lemma digits_string_of_uint (d : Decimal.uint) (acc : Z) :
  digits (DecimalString.NilEmpty.string_of_uint d) acc =
  Z.of_N (DecimalPos.Unsigned.of_lu (Decimal.rev d))
  + acc * 10 ^ Z.of_N (DecimalPos.Unsigned.usize d).
Proof.
  revert acc.
  induction d as [|d IHd|d IHd|d IHd|d IHd|d IHd|d IHd|d IHd|d IHd|d IHd|d IHd];
    intros acc;
    [ simpl; lia | .. ];
    cbn [DecimalString.NilEmpty.string_of_uint digits];
    match goal with
    | |- context [isdigit ?c] =>
        change (isdigit c) with true; cbv iota
    end;
    rewrite IHd; unfold Decimal.rev at 2; cbn [Decimal.revapp];
    rewrite DecimalPos.Unsigned.of_lu_revapp;
    cbn [DecimalPos.Unsigned.usize DecimalPos.Unsigned.of_lu];
    rewrite N2Z.inj_add, N2Z.inj_mul, N2Z.inj_pow, N2Z.inj_succ;
    rewrite Z.pow_succ_r by lia;
    match goal with
    | |- context [code ?c] =>
        let v := eval vm_compute in (code c) in change (code c) with v
    end;
    change (Z.of_N 10) with 10;
    match goal with
    | |- context [Z.of_N ?n * _] =>
        let v := eval vm_compute in (Z.of_N n) in change (Z.of_N n) with v
    end; ring.
Qed.

Lemma atoll_string_of_uint (d : Decimal.uint) :
  d <> Decimal.Nil ->
  atoll (DecimalString.NilEmpty.string_of_uint d) =
  Z.min LLONG_MAX (digits (DecimalString.NilEmpty.string_of_uint d) 0).
Proof.
  destruct d; intros Hd; [contradiction | ..]; reflexivity.
Qed.

(** [atoll] reads the decimal representation of [n] as [n], up to the
    largest [long long]. *)
Lemma atoll_decimal (n : N) :
  atoll (decimal n) = Z.min LLONG_MAX (Z.of_N n).
Proof.
  unfold decimal. rewrite atoll_string_of_uint.
  - rewrite digits_string_of_uint, <- DecimalPos.Unsigned.of_uint_alt.
    change (Pos.of_uint (N.to_uint n)) with (N.of_uint (N.to_uint n)).
    rewrite DecimalN.Unsigned.of_to. lia.
  - destruct n; [discriminate|]. apply DecimalPos.Unsigned.to_uint_nonnil.
Qed.

Lemma status_row_defined (db : mysql_database_t) (k v : string)
    (rest : MYSQL_ROW) (a : read_acc) :
  exists r, status_row db (Some k :: Some v :: rest) a = Some r.
Proof. unfold status_row. cbn [cell nth]. eexists. reflexivity. Qed.

Lemma status_rows_defined (db : mysql_database_t) (rs : list MYSQL_ROW) :
  Forall has_key_and_value rs ->
  forall a, exists r, status_rows db rs a = Some r.
Proof.
  induction 1 as [|row rs (k & v & rest & ->) _ IH]; intros a.
  - eexists. reflexivity.
  - cbn [status_rows].
    destruct (status_row_defined db k v rest a) as [[a1 out] ->].
    destruct (IH a1) as [[a2 outs] ->]. eexists. reflexivity.
Qed.

Lemma innodb_stats_row_defined (db : mysql_database_t) (k v : string)
    (rest : MYSQL_ROW) :
  exists out, innodb_stats_row db (Some k :: Some v :: rest) = Some out.
Proof.
  unfold innodb_stats_row. cbn [cell nth].
  destruct (metrics_scan innodb_metrics k) as [[[? ?] []]|];
    eexists; reflexivity.
Qed.

Lemma digits_app_no_digit (d : Decimal.uint) (t : string) (acc : Z) :
  leading_digit t = false ->
  digits (DecimalString.NilEmpty.string_of_uint d ++ t) acc =
  digits (DecimalString.NilEmpty.string_of_uint d) acc.
Proof.
  intros Ht. revert acc.
  induction d as [|d IHd|d IHd|d IHd|d IHd|d IHd|d IHd|d IHd|d IHd|d IHd|d IHd];
    intros acc;
    cbn [DecimalString.NilEmpty.string_of_uint String.append digits];
    [apply digits_no_leading_digit, Ht | ..];
    match goal with
    | |- context [isdigit ?c] => change (isdigit c) with true; cbv iota
    end;
    apply IHd.
Qed.

Lemma digits_decimal_app (n : N) (t : string) :
  leading_digit t = false -> digits (decimal n ++ t) 0 = Z.of_N n.
Proof.
  intros Ht. unfold decimal.
  rewrite (digits_app_no_digit _ t 0 Ht), digits_string_of_uint.
  rewrite <- DecimalPos.Unsigned.of_uint_alt.
  change (Pos.of_uint (N.to_uint n)) with (N.of_uint (N.to_uint n)).
  rewrite DecimalN.Unsigned.of_to. lia.
Qed.

Lemma atoll_string_of_uint_app (d : Decimal.uint) (t : string) :
  d <> Decimal.Nil ->
  atoll (DecimalString.NilEmpty.string_of_uint d ++ t) =
  Z.min LLONG_MAX
    (digits (DecimalString.NilEmpty.string_of_uint d ++ t) 0).
Proof.
  destruct d; intros Hd; [contradiction | ..]; reflexivity.
Qed.

(** [atoll] reads the decimal digits at the head of a string and ignores
    what follows them. *)
Lemma atoll_decimal_app (n : N) (t : string) :
  leading_digit t = false ->
  atoll (decimal n ++ t) = Z.min LLONG_MAX (Z.of_N n).
Proof.
  intros Ht. rewrite <- (digits_decimal_app n t Ht). unfold decimal.
  apply atoll_string_of_uint_app.
  destruct n; [discriminate|]. apply DecimalPos.Unsigned.to_uint_nonnil.
Qed.

Lemma atoll_minus_decimal_app (n : N) (t : string) :
  leading_digit t = false ->
  atoll (String "-" (decimal n ++ t)) = Z.max LLONG_MIN (- Z.of_N n).
Proof.
  intros Ht. unfold atoll. cbn [skip_space].
  change (isspace "-") with false. cbv iota.
  change (Ascii.eqb "-" "-") with true. cbv iota.
  rewrite (digits_decimal_app n t Ht). reflexivity.
Qed.

(** C9, as the code has it: every value is read by [atoll], that is,
    after white space and an optional sign the decimal digits that follow
    are the value (the digits of [n] read as [n], limited to the range of
    [long long]) and whatever comes after them is ignored; a value without
    such a digit counts as zero.  The row is classified with the value so
    read, by the loop of [mysql_read] and by the loop of
    [mysql_read_innodb_stats]: an Uptime row dispatches it as gauge, a
    Table_locks_ row and a row of the InnoDB table as derive value, and
    two values that read alike are classified alike.  A value without a
    digit is classified exactly as the value "0": with it an Uptime row
    dispatches the gauge 0 and a Com_ row nothing.  Every row with a key
    and a value yields a result and not an error, and a result whose rows
    all have a key and a value is classified to the end whatever the
    values are: the loop dispatches the value of an Uptime row and goes on
    with the rows after it, and a call of [mysql_read] for an instance
    with no optional reader switched on, whose status query yields such
    rows, returns 0 with the values of all rows dispatched. *)
Theorem status_values_read_by_atoll (db : mysql_database_t)
    (k v : string) (rest : MYSQL_ROW) (a : read_acc) :
  (forall (n : N) (t : string),
     leading_digit t = false ->
     atoll (decimal n) = Z.min LLONG_MAX (Z.of_N n) /\
     atoll (decimal n ++ t) = Z.min LLONG_MAX (Z.of_N n) /\
     atoll (String "-" (decimal n ++ t)) = Z.max LLONG_MIN (- Z.of_N n)) /\
  status_row db (Some "Uptime" :: Some v :: rest) a =
    Some (a, [gauge_submit "uptime" None
                (gauge_of_ull (to_ull (atoll v))) db]) /\
  status_row db (Some "Table_locks_immediate" :: Some v :: rest) a =
    Some (a, [derive_submit "mysql_locks" (Some "immediate")
                (to_ll (to_ull (atoll v))) db]) /\
  innodb_stats_row db (Some "dml_reads" :: Some v :: rest) =
    Some [derive_submit "operations" (Some "dml_reads")
            (to_ll (to_ull (atoll v))) db] /\
  (forall v',
     to_ull (atoll v') = to_ull (atoll v) ->
     status_row db (Some k :: Some v' :: rest) a =
       status_row db (Some k :: Some v :: rest) a /\
     innodb_stats_row db (Some k :: Some v' :: rest) =
       innodb_stats_row db (Some k :: Some v :: rest)) /\
  (no_conversion v = true ->
   to_ull (atoll v) = 0 /\
   status_row db (Some k :: Some v :: rest) a =
     status_row db (Some k :: Some "0" :: rest) a /\
   innodb_stats_row db (Some k :: Some v :: rest) =
     innodb_stats_row db (Some k :: Some "0" :: rest) /\
   status_row db (Some "Uptime" :: Some v :: rest) a =
     Some (a, [gauge_submit "uptime" None (gauge_of_ull 0) db]) /\
   status_row db (Some "Com_select" :: Some v :: rest) a = Some (a, [])) /\
  (exists r, status_row db (Some k :: Some v :: rest) a = Some r) /\
  (exists out, innodb_stats_row db (Some k :: Some v :: rest) = Some out) /\
  (forall rs a0, Forall has_key_and_value rs ->
     exists r, status_rows db rs a0 = Some r) /\
  (forall rs a2 outs,
     status_rows db rs a = Some (a2, outs) ->
     status_rows db ((Some "Uptime" :: Some v :: rest) :: rs) a =
       Some (a2, gauge_submit "uptime" None
                   (gauge_of_ull (to_ull (atoll v))) db :: outs)) /\
  (forall env d d0 c calls res,
     getconnection env d = Some (d0, Some c, calls) ->
     exec_query env c (global_status_query (mysql_version d0)) = Some res ->
     Forall has_key_and_value (rows res) ->
     innodb_stats d0 = false -> primary_stats d0 = false ->
     replica_stats d0 = false -> replica_notif d0 = false ->
     wsrep_stats d0 = false ->
     exists a1 out,
       status_rows d0 (rows res) read_acc_init = Some (a1, out) /\
       mysql_read env d =
         Some {| ret := 0; db_after := d0;
                 dispatched :=
                   (out ++ qcache_block d0 a1 ++ threads_block d0 a1
                    ++ [traffic_submit (to_ll (traffic_incoming a1))
                          (to_ll (traffic_outgoing a1)) d0])
                   ++ [] ++ [] ++ [] ++ [];
                 notified := []; library_calls := calls |}).
Proof.
  assert (Huptime : forall w,
            status_row db (Some "Uptime" :: Some w :: rest) a =
            Some (a, [gauge_submit "uptime" None
                        (gauge_of_ull (to_ull (atoll w))) db])).
  { intros w. unfold status_row. cbn [cell nth].
    rewrite andb_false_r. reflexivity. }
  repeat match goal with |- _ /\ _ => split end.
  - intros n t Ht. split; [apply atoll_decimal|].
    split; [apply atoll_decimal_app, Ht | apply atoll_minus_decimal_app, Ht].
  - apply Huptime.
  - reflexivity.
  - reflexivity.
  - intros v' Hv. unfold status_row, innodb_stats_row. cbn [cell nth].
    rewrite Hv. split; reflexivity.
  - intros H. apply atoll_no_conversion in H.
    split; [rewrite H; reflexivity|].
    split; [unfold status_row; cbn [cell nth];
            rewrite H, atoll_zero_string; reflexivity|].
    split; [unfold innodb_stats_row; cbn [cell nth];
            rewrite H, atoll_zero_string; reflexivity|].
    split; [rewrite Huptime, H; reflexivity|].
    unfold status_row. cbn [cell nth]. rewrite H. reflexivity.
  - apply status_row_defined.
  - apply innodb_stats_row_defined.
  - intros rs a0 Hrs. apply status_rows_defined, Hrs.
  - intros rs a2 outs Hrs. cbn [status_rows].
    rewrite Huptime, Hrs. reflexivity.
  - intros env d d0 c calls res Hget Hq Hrows Hi Hp Hr Hn Hw.
    destruct (status_rows_defined d0 (rows res) Hrows read_acc_init)
      as [[a1 out] E].
    exists a1, out. split; [exact E|].
    unfold mysql_read. rewrite Hget, Hq, E.
    unfold innodb_part, primary_part, replica_part, wsrep_part.
    rewrite Hi, Hp, Hr, Hn, andb_false_r. cbn [orb]. cbv iota beta.
    rewrite Hw. reflexivity.
Qed.

(** ** Replica status *)

(** C10: when SHOW SLAVE STATUS yields no row, or a result of fewer than
    33 columns, [mysql_read_replica_stats] returns -1 having dispatched no
    value and no notification, and the instance, with both replica flags,
    is as before.  Whenever the reader changes a replica flag, the result
    had a row and at least 33 columns. *)
Theorem replica_result_too_small (env : environment)
    (db : mysql_database_t) (c : MYSQL) (res : MYSQL_RES) :
  exec_query env c "SHOW SLAVE STATUS" = Some res ->
  (rows res = [] \/ num_fields res < 33 ->
   mysql_read_replica_stats env db c = Some (-1, db, [], [])) /\
  (forall status db' vals notifs,
     mysql_read_replica_stats env db c = Some (status, db', vals, notifs) ->
     replica_io_running db' <> replica_io_running db
     \/ replica_sql_running db' <> replica_sql_running db ->
     rows res <> [] /\ 33 <= num_fields res).
Proof.
  intros Hq. unfold mysql_read_replica_stats. rewrite Hq. split.
  - intros [Hrows | Hcols].
    + rewrite Hrows. reflexivity.
    + destruct (rows res) as [|row rest]; [reflexivity|].
      destruct (Z.ltb_spec (num_fields res) 33); [reflexivity | lia].
  - intros status db' vals notifs.
    destruct (rows res) as [|row rest].
    + intros [= _ <- _ _] [Hf | Hf]; exfalso; apply Hf; reflexivity.
    + destruct (Z.ltb_spec (num_fields res) 33).
      * intros [= _ <- _ _] [Hf | Hf]; exfalso; apply Hf; reflexivity.
      * intros _ _. split; [discriminate | assumption].
Qed.

Lemma is_not_yes_negb (p : option string) : is_not_yes p = negb (is_yes p).
Proof. destruct p; reflexivity. Qed.

Lemma is_yes_iff (p : option string) :
  is_yes p = true <-> exists s, p = Some s /\ lowercase s = "yes".
Proof.
  destruct p as [s|]; simpl.
  - rewrite Z.eqb_eq, strcasecmp_zero. split.
    + intros H. exists s. split; [reflexivity | exact H].
    + intros (s' & [= <-] & H). exact H.
  - split; [discriminate | intros (s' & H & _); discriminate H].
Qed.

(** C1, as the code has it: for an instance with replica notifications
    switched on, one pass over the replica row treats the I/O flag and the
    SQL flag each on its own: observed not running with the stored flag
    set gives exactly one warning and clears the flag; observed running
    (the cell is not NULL and reads yes in any letter case) with the
    stored flag clear gives exactly one okay notification and sets the
    flag; observed and stored alike give no notification and leave the
    flag.  A second pass over the same row gives no notification and
    changes nothing.  With replica notifications switched off the pass
    gives no notification and leaves the instance as it is. *)
Theorem replica_health_step (env : environment) (db : mysql_database_t)
    (row : MYSQL_ROW) :
  (replica_notif db = true ->
   exists io_out sql_out,
     snd (replica_notif_block env db row) = io_out ++ sql_out /\
     flag_transition (is_yes (cell row SLAVE_IO_RUNNING_IDX))
       (replica_io_running db)
       (replica_io_running (fst (replica_notif_block env db row)))
       (map severity_and_message io_out)
       "replica I/O thread not started or not connected to primary"
       "replica I/O thread started and connected to primary" /\
     flag_transition (is_yes (cell row SLAVE_SQL_RUNNING_IDX))
       (replica_sql_running db)
       (replica_sql_running (fst (replica_notif_block env db row)))
       (map severity_and_message sql_out)
       "replica SQL thread not started"
       "replica SQL thread started" /\
     forall env',
       replica_notif_block env' (fst (replica_notif_block env db row)) row
       = (fst (replica_notif_block env db row), [])) /\
  (replica_notif db = false -> replica_notif_block env db row = (db, [])) /\
  (forall p, is_yes p = true <-> exists s, p = Some s /\ lowercase s = "yes").
Proof.
  split; [|split; [|exact is_yes_iff]].
  - intros Hn.
    exists
      (if negb (is_yes (cell row SLAVE_IO_RUNNING_IDX)) && replica_io_running db
       then [notification env db NOTIF_WARNING
               "replica I/O thread not started or not connected to primary"]
       else if is_yes (cell row SLAVE_IO_RUNNING_IDX)
               && negb (replica_io_running db)
       then [notification env db NOTIF_OKAY
               "replica I/O thread started and connected to primary"]
       else []).
    exists
      (if negb (is_yes (cell row SLAVE_SQL_RUNNING_IDX))
          && replica_sql_running db
       then [notification env db NOTIF_WARNING "replica SQL thread not started"]
       else if is_yes (cell row SLAVE_SQL_RUNNING_IDX)
               && negb (replica_sql_running db)
       then [notification env db NOTIF_OKAY "replica SQL thread started"]
       else []).
    unfold replica_notif_block, flag_transition. rewrite Hn.
    rewrite !is_not_yes_negb.
    destruct (is_yes (cell row SLAVE_IO_RUNNING_IDX)) eqn:Hio;
      destruct (replica_io_running db) eqn:Hsi;
      destruct (is_yes (cell row SLAVE_SQL_RUNNING_IDX)) eqn:Hsql;
      destruct (replica_sql_running db) eqn:Hss;
      cbn [negb andb fst snd set_replica_io_running set_replica_sql_running
           replica_io_running replica_sql_running replica_notif];
      rewrite ?Hsi, ?Hss, ?Hn;
      cbn [negb andb fst snd app map];
      (repeat split; intros; try discriminate; try reflexivity);
      repeat (progress
        (rewrite ?is_not_yes_negb, ?Hn, ?Hio, ?Hsql, ?Hsi, ?Hss;
         cbn [negb andb fst snd app set_replica_io_running
              set_replica_sql_running replica_io_running
              replica_sql_running replica_notif]));
      reflexivity.
  - intros Hn. unfold replica_notif_block. rewrite Hn. reflexivity.
Qed.

(** ** Cluster status *)

(** C2, at a result whose first row is wsrep_cluster_size = 3 and whose
    second row is wsrep_received = 12: the loop body maps the first row to
    one gauge value of type gauge, yet [mysql_read_wsrep_stats] dispatches
    the value of the second row only; the first row went to the test for
    an empty result and never reaches the loop. *)
Theorem wsrep_first_row_not_classified (db : mysql_database_t) (c : MYSQL) :
  wsrep_stats_row db [Some "wsrep_cluster_size"; Some "3"] =
    Some [gauge_submit "gauge" (Some "wsrep_cluster_size") (gauge_of_ull 3) db]
  /\ exec_query Sample.env c "SHOW GLOBAL STATUS LIKE 'wsrep_%'" =
       Some {| num_fields := 2;
               rows := [ [Some "wsrep_cluster_size"; Some "3"];
                         [Some "wsrep_received"; Some "12"] ] |}
  /\ mysql_read_wsrep_stats Sample.env db c =
       Some (0, [derive_submit "operations" (Some "wsrep_received") 12 db]).
Proof. repeat split. Qed.

(** ** Connections *)

(** C3, as the code has it: when a reconnect attempt gets a session object
    from [mysql_init] and the handshake of [mysql_real_connect] fails,
    [getconnection] returns NULL and leaves the instance marked as not
    connected, with the session object of the failed attempt still stored
    in it.  The next call does not probe that object: it closes it, and
    from there on does what it does for an instance without a session
    object. *)
Theorem failed_handshake (env : environment) (db : mysql_database_t)
    (h : MYSQL) :
  (is_connected db = true ->
   exists old, con db = Some old /\ mysql_ping env old <> 0) ->
  mysql_init env = Some h ->
  mysql_real_connect env h = false ->
  exists db' calls,
    getconnection env db = Some (db', None, calls) /\
    is_connected db' = false /\
    con db' = Some h /\
    forall env2,
      let fresh := set_connection db' None false (mysql_version db') in
      exists db2 result calls2,
        getconnection env2 fresh = Some (db2, result, calls2) /\
        getconnection env2 db' = Some (db2, result, call_close h :: calls2).
Proof.
  intros Hprobe Hinit Hconnect.
  assert (Hget : exists calls,
             getconnection env db =
             Some (set_connection db (Some h) false (mysql_version db),
                   None, calls)).
  { unfold getconnection.
    destruct (is_connected db) eqn:Hc.
    - destruct (Hprobe eq_refl) as (old & -> & Hping).
      destruct (Z.eqb_spec (mysql_ping env old) 0); [contradiction|].
      unfold getconnection_reconnect. rewrite Hinit, Hconnect.
      eexists. reflexivity.
    - unfold getconnection_reconnect. rewrite Hinit, Hconnect.
      eexists. reflexivity. }
  destruct Hget as [calls Hget].
  exists (set_connection db (Some h) false (mysql_version db)), calls.
  repeat split; [exact Hget|].
  intros env2. unfold getconnection, getconnection_reconnect.
  cbn [is_connected con set_connection mysql_version].
  destruct (mysql_init env2) as [h2|].
  - destruct (mysql_real_connect env2 h2); do 3 eexists; split; reflexivity.
  - do 3 eexists. split; reflexivity.
Qed.

(** ** The optional readers *)

Lemma exec_query_fail (env : environment) (c : MYSQL) (s q : string) :
  exec_query (fail_query env q) c s =
  if String.eqb s q then None else exec_query env c s.
Proof. reflexivity. Qed.

Lemma optional_statements_distinct (v : Z) (which failed : optional_reader) :
  String.eqb (optional_statement v which) (optional_statement v failed)
  = optional_reader_eqb failed which.
Proof.
  destruct which, failed; unfold optional_statement, innodb_metrics_query;
    destruct (v >=? 100500); reflexivity.
Qed.

Lemma global_status_query_not_optional (v v' : Z) (failed : optional_reader) :
  String.eqb (global_status_query v) (optional_statement v' failed) = false.
Proof.
  destruct failed;
    unfold global_status_query, optional_statement, innodb_metrics_query;
    destruct (v >=? 50002); destruct (v' >=? 100500); reflexivity.
Qed.

Lemma innodb_part_fail (env : environment) (db : mysql_database_t)
    (c : MYSQL) (failed : optional_reader) :
  innodb_part
    (fail_query env (optional_statement (mysql_version db) failed)) db c =
  if optional_reader_eqb failed reader_innodb then Some []
  else innodb_part env db c.
Proof.
  unfold innodb_part, mysql_read_innodb_stats.
  rewrite exec_query_fail.
  change (innodb_metrics_query (mysql_version db)) with (optional_statement (mysql_version db) reader_innodb).
  rewrite (optional_statements_distinct (mysql_version db) reader_innodb failed).
  destruct (optional_reader_eqb failed reader_innodb); [|reflexivity].
  destruct ((mysql_version db >=? 50600) && innodb_stats db); reflexivity.
Qed.

Lemma primary_part_fail (env : environment) (db : mysql_database_t)
    (c : MYSQL) (v : Z) (failed : optional_reader) :
  primary_part (fail_query env (optional_statement v failed)) db c =
  if optional_reader_eqb failed reader_primary then Some []
  else primary_part env db c.
Proof.
  unfold primary_part, mysql_read_primary_stats.
  rewrite exec_query_fail.
  change "SHOW MASTER STATUS" with (optional_statement v reader_primary).
  rewrite (optional_statements_distinct v reader_primary failed).
  destruct (optional_reader_eqb failed reader_primary); [|reflexivity].
  destruct (primary_stats db); reflexivity.
Qed.

Lemma replica_part_fail (env : environment) (db : mysql_database_t)
    (c : MYSQL) (v : Z) (failed : optional_reader) :
  replica_part (fail_query env (optional_statement v failed)) db c =
  if optional_reader_eqb failed reader_replica then Some (db, [], [])
  else replica_part env db c.
Proof.
  unfold replica_part, mysql_read_replica_stats.
  rewrite exec_query_fail.
  change "SHOW SLAVE STATUS" with (optional_statement v reader_replica).
  rewrite (optional_statements_distinct v reader_replica failed).
  destruct (optional_reader_eqb failed reader_replica); [|reflexivity].
  destruct (replica_stats db || replica_notif db); reflexivity.
Qed.

Lemma wsrep_part_fail (env : environment) (db : mysql_database_t)
    (c : MYSQL) (v : Z) (failed : optional_reader) :
  wsrep_part (fail_query env (optional_statement v failed)) db c =
  if optional_reader_eqb failed reader_wsrep then Some []
  else wsrep_part env db c.
Proof.
  unfold wsrep_part, mysql_read_wsrep_stats.
  rewrite exec_query_fail.
  change "SHOW GLOBAL STATUS LIKE 'wsrep_%'" with (optional_statement v reader_wsrep).
  rewrite (optional_statements_distinct v reader_wsrep failed).
  destruct (optional_reader_eqb failed reader_wsrep); [|reflexivity].
  destruct (wsrep_stats db); reflexivity.
Qed.

(** The cluster reader looks at the instance name, the alias, the host and
    its own switch only. *)
Lemma wsrep_part_same (env : environment) (db db' : mysql_database_t)
    (c : MYSQL) :
  instance db' = instance db -> alias db' = alias db ->
  host db' = host db -> wsrep_stats db' = wsrep_stats db ->
  wsrep_part env db' c = wsrep_part env db c.
Proof.
  destruct db, db'. cbn [instance alias host wsrep_stats].
  intros -> -> -> ->. reflexivity.
Qed.

Lemma replica_notif_block_same (env : environment) (db : mysql_database_t)
    (row : MYSQL_ROW) :
  let db' := fst (replica_notif_block env db row) in
  instance db' = instance db /\ alias db' = alias db /\
  host db' = host db /\ wsrep_stats db' = wsrep_stats db.
Proof.
  unfold replica_notif_block.
  repeat match goal with
         | |- context [if ?b then _ else _] => destruct b
         end; repeat split.
Qed.

Lemma replica_part_same (env : environment) (db db1 : mysql_database_t)
    (c : MYSQL) (out : list value_list_t) (notifs : list notification_t) :
  replica_part env db c = Some (db1, out, notifs) ->
  instance db1 = instance db /\ alias db1 = alias db /\
  host db1 = host db /\ wsrep_stats db1 = wsrep_stats db.
Proof.
  unfold replica_part, mysql_read_replica_stats.
  destruct (replica_stats db || replica_notif db);
    [|intros [= <- _ _]; repeat split].
  destruct (exec_query env c "SHOW SLAVE STATUS") as [res|];
    [|intros [= <- _ _]; repeat split].
  destruct (rows res) as [|row rest]; [intros [= <- _ _]; repeat split|].
  destruct (num_fields res <? 33); [intros [= <- _ _]; repeat split|].
  destruct (replica_stats_block db row); [|discriminate].
  pose proof (replica_notif_block_same env db row) as Hsame.
  destruct (replica_notif_block env db row) as [db' ns].
  intros [= <- _ _]. exact Hsame.
Qed.

(** What a call of [mysql_read] went through once it had its connection
    and the result of the global status statement. *)
Lemma mysql_read_inversion (env : environment) (db db0 : mysql_database_t)
    (r : read_result) (c : MYSQL) (calls : list client_call)
    (res : MYSQL_RES) :
  mysql_read env db = Some r ->
  getconnection env db = Some (db0, Some c, calls) ->
  exec_query env c (global_status_query (mysql_version db0)) = Some res ->
  exists a out_rows inno prim db1 repl notifs wsr,
    status_rows db0 (rows res) read_acc_init = Some (a, out_rows) /\
    innodb_part env db0 c = Some inno /\
    primary_part env db0 c = Some prim /\
    replica_part env db0 c = Some (db1, repl, notifs) /\
    wsrep_part env db1 c = Some wsr /\
    r = {| ret := 0; db_after := db1;
           dispatched :=
             (out_rows ++ qcache_block db0 a ++ threads_block db0 a
              ++ [traffic_submit (to_ll (traffic_incoming a))
                    (to_ll (traffic_outgoing a)) db0])
             ++ inno ++ prim ++ repl ++ wsr;
           notified := notifs; library_calls := calls |}.
Proof.
  unfold mysql_read. intros Hread Hcon Hq. rewrite Hcon, Hq in Hread.
  destruct (status_rows db0 (rows res) read_acc_init) as [[a out_rows]|]
    eqn:Hrows; [|discriminate].
  destruct (innodb_part env db0 c) as [inno|] eqn:Hi; [|discriminate].
  destruct (primary_part env db0 c) as [prim|] eqn:Hp; [|discriminate].
  destruct (replica_part env db0 c) as [[[db1 repl] notifs]|] eqn:Hr;
    [|discriminate].
  destruct (wsrep_part env db1 c) as [wsr|] eqn:Hw; [|discriminate].
  injection Hread as <-.
  exists a, out_rows, inno, prim, db1, repl, notifs, wsr.
  repeat split; assumption.
Qed.

(** C8: take a call of [mysql_read] that got its connection and the
    result of the global status statement.  It returns 0, and its values
    are those of the main part followed by those of the InnoDB, primary,
    replica and cluster readers.  If the statement of any one of the four
    readers fails instead, the call still returns 0, and it dispatches
    the same values except that those of the failed reader are missing:
    the three other readers run and dispatch what they dispatched
    before. *)
Theorem optional_reader_failure_contained (env : environment)
    (db db0 : mysql_database_t) (r : read_result) (c : MYSQL)
    (calls : list client_call) (res : MYSQL_RES) :
  mysql_read env db = Some r ->
  getconnection env db = Some (db0, Some c, calls) ->
  exec_query env c (global_status_query (mysql_version db0)) = Some res ->
  ret r = 0 /\
  exists main inno prim repl wsr,
    innodb_part env db0 c = Some inno /\
    primary_part env db0 c = Some prim /\
    (exists db1 notifs, replica_part env db0 c = Some (db1, repl, notifs)) /\
    wsrep_part env db0 c = Some wsr /\
    dispatched r = main ++ inno ++ prim ++ repl ++ wsr /\
    forall failed : optional_reader,
      exists r',
        mysql_read
          (fail_query env (optional_statement (mysql_version db0) failed)) db
        = Some r' /\
        ret r' = 0 /\
        dispatched r' =
          main ++ unless_failed failed reader_innodb inno
          ++ unless_failed failed reader_primary prim
          ++ unless_failed failed reader_replica repl
          ++ unless_failed failed reader_wsrep wsr.
Proof.
  intros Hread Hcon Hq.
  destruct (mysql_read_inversion env db db0 r c calls res Hread Hcon Hq)
    as (a & out_rows & inno & prim & db1 & repl & notifs & wsr
        & Hrows & Hi & Hp & Hr & Hw & ->).
  destruct (replica_part_same env db0 db1 c repl notifs Hr)
    as (S1 & S2 & S3 & S4).
  assert (Hw0 : wsrep_part env db0 c = Some wsr).
  { rewrite <- Hw. symmetry. apply wsrep_part_same; assumption. }
  split; [reflexivity|].
  exists
    (out_rows ++ qcache_block db0 a ++ threads_block db0 a
     ++ [traffic_submit (to_ll (traffic_incoming a))
           (to_ll (traffic_outgoing a)) db0]),
    inno, prim, repl, wsr.
  split; [exact Hi|]. split; [exact Hp|].
  split; [do 2 eexists; exact Hr|]. split; [exact Hw0|].
  split; [reflexivity|].
  intros failed. unfold mysql_read.
  change (getconnection (fail_query env
            (optional_statement (mysql_version db0) failed)) db)
    with (getconnection env db).
  rewrite Hcon, exec_query_fail, global_status_query_not_optional, Hq, Hrows.
  rewrite innodb_part_fail, primary_part_fail, replica_part_fail.
  unfold unless_failed.
  destruct failed; cbn [optional_reader_eqb];
    rewrite ?Hi, ?Hp, ?Hr, ?wsrep_part_fail; cbn [optional_reader_eqb];
    rewrite ?Hw, ?Hw0; eexists; repeat split.
Qed.

(** ** More about connections *)

(** X1: an instance that has a session object whenever it is marked as
    connected keeps that property through [getconnection], which then is
    defined; and [getconnection] returns a session object exactly when it
    leaves the instance marked as connected, the object returned being the
    one stored. *)
Theorem getconnection_invariant (env : environment) (db : mysql_database_t) :
  (is_connected db = true -> con db <> None) ->
  exists db' p calls,
    getconnection env db = Some (db', p, calls) /\
    (is_connected db' = true -> con db' <> None) /\
    (forall h, p = Some h <-> is_connected db' = true /\ con db' = Some h) /\
    (p = None <-> is_connected db' = false).
Proof.
  intros Hinv. unfold getconnection, getconnection_reconnect.
  destruct (is_connected db) eqn:Hc.
  - destruct (con db) as [old|] eqn:Hold; [|exfalso; apply Hinv; reflexivity].
    destruct (mysql_ping env old =? 0).
    + do 3 eexists. split; [reflexivity|]. rewrite Hc, Hold.
      repeat split; try congruence.
      intros [_ H]. exact H.
    + destruct (mysql_init env) as [h|];
        [destruct (mysql_real_connect env h)|];
        (do 3 eexists; split; [reflexivity|]);
        cbn [is_connected con set_connection];
        repeat split; try congruence; intros [? ?]; congruence.
  - destruct (mysql_init env) as [h|];
      [destruct (mysql_real_connect env h)|];
      (do 3 eexists; split; [reflexivity|]);
      cbn [is_connected con set_connection];
      repeat split; try congruence; intros [? ?]; congruence.
Qed.

(** X2: after a call of [getconnection] that returned a session object, a
    next call whose probe of that object succeeds returns the same object,
    leaves the instance as it is and makes no library call but the
    probe. *)
Theorem getconnection_reuse (env env2 : environment)
    (db db1 : mysql_database_t) (h : MYSQL) (calls : list client_call) :
  getconnection env db = Some (db1, Some h, calls) ->
  mysql_ping env2 h = 0 ->
  getconnection env2 db1 = Some (db1, Some h, [call_ping h]).
Proof.
  intros Hget Hping.
  assert (Hc : is_connected db1 = true /\ con db1 = Some h).
  { revert Hget. unfold getconnection, getconnection_reconnect.
    destruct (is_connected db) eqn:Hc.
    - destruct (con db) as [old|] eqn:Hold; [|discriminate].
      destruct (mysql_ping env old =? 0).
      + intros [= <- <- _]. split; assumption.
      + destruct (mysql_init env) as [h'|]; [|discriminate].
        destruct (mysql_real_connect env h'); [|discriminate].
        intros [= <- <- _]. split; reflexivity.
    - destruct (mysql_init env) as [h'|]; [|discriminate].
      destruct (mysql_real_connect env h'); [|discriminate].
      intros [= <- <- _]. split; reflexivity. }
  destruct Hc as [Hc Hcon]. unfold getconnection.
  rewrite Hc, Hcon, Hping. reflexivity.
Qed.

(** X3: [getconnection] writes the session object, the connected mark and
    the server version only: with these three put back, the instance is
    the one before the call.  When the call returns NULL the recorded
    server version is the one before the call, too. *)
Theorem getconnection_frame (env : environment) (db db' : mysql_database_t)
    (p : option MYSQL) (calls : list client_call) :
  getconnection env db = Some (db', p, calls) ->
  set_connection db' (con db) (is_connected db) (mysql_version db) = db /\
  (p = None -> mysql_version db' = mysql_version db).
Proof.
  intros Hget. destruct db.
  unfold getconnection, getconnection_reconnect in Hget. simpl in *.
  repeat match type of Hget with
         | context [if ?b then _ else _] => destruct b
         | context [match ?x with _ => _ end] => destruct x
         end;
    try discriminate; injection Hget as <- <- _; simpl;
    (split; [reflexivity | try discriminate; reflexivity]).
Qed.

Lemma count_calls_app (f : client_call -> bool) (l l' : list client_call) :
  count_calls f (l ++ l') = (count_calls f l + count_calls f l')%nat.
Proof. unfold count_calls. rewrite filter_app, length_app. reflexivity. Qed.

Lemma getconnection_balance (env : environment) (db db' : mysql_database_t)
    (p : option MYSQL) (calls : list client_call) :
  getconnection env db = Some (db', p, calls) ->
  (held db + count_calls is_ssl_set calls
   = held db' + count_calls is_close calls)%nat.
Proof.
  intros Hget. destruct db.
  unfold getconnection, getconnection_reconnect in Hget.
  unfold held. simpl in *.
  repeat match type of Hget with
         | context [if ?b then _ else _] => destruct b
         | context [match ?x with _ => _ end] => destruct x
         end;
    try discriminate; injection Hget as <- _ <-; reflexivity.
Qed.

Lemma getconnection_keeps_replica_notif (env : environment)
    (db db' : mysql_database_t) (p : option MYSQL)
    (calls : list client_call) :
  getconnection env db = Some (db', p, calls) ->
  replica_notif db' = replica_notif db.
Proof.
  intros Hget. destruct db.
  unfold getconnection, getconnection_reconnect in Hget. simpl in *.
  repeat match type of Hget with
         | context [if ?b then _ else _] => destruct b
         | context [match ?x with _ => _ end] => destruct x
         end;
    try discriminate; injection Hget as <- _ _; reflexivity.
Qed.

(** X4: over any number of calls of [getconnection] on an instance and its
    release by [mysql_database_free] at the end, the session objects the
    instance held at the start plus those set up since (each new one is
    passed to [mysql_ssl_set] once) are as many as the calls of
    [mysql_close]: starting without a session object, every session object
    is closed once and none is left. *)
Theorem sessions_closed (envs : list environment)
    (db db' : mysql_database_t) (calls : list client_call) :
  getconnection_cycles envs db = Some (db', calls) ->
  (held db + count_calls is_ssl_set (calls ++ mysql_database_free db')
   = count_calls is_close (calls ++ mysql_database_free db'))%nat.
Proof.
  revert db db' calls.
  induction envs as [|env rest IH]; intros db db' calls; cbn [getconnection_cycles].
  - intros [= <- <-]. unfold mysql_database_free, held.
    destruct (con db); reflexivity.
  - destruct (getconnection env db) as [[[db1 p] c1]|] eqn:Hget; [|discriminate].
    destruct (getconnection_cycles rest db1) as [[db2 c2]|] eqn:Hrest;
      [|discriminate].
    intros [= <- <-].
    pose proof (getconnection_balance env db db1 p c1 Hget) as H1.
    pose proof (IH db1 db2 c2 Hrest) as H2.
    rewrite <- app_assoc, !count_calls_app in *. lia.
Qed.

(** ** More about the optional readers *)


(** X6: for an instance with replica statistics switched on, a replica
    row of at least 33 columns gives four values, in this order: the SQL
    thread and the I/O thread as truth values of "the cell reads yes", the
    read and the executed log position; and a fifth, the time offset,
    exactly when the cell Seconds_Behind_Master is not NULL.  Another
    instance of the same name, alias and host with replica statistics
    switched on gets the same values, whatever its notification switch
    and its stored replica flags are. *)
Theorem replica_stats_values (env : environment) (db : mysql_database_t)
    (c : MYSQL) (res : MYSQL_RES) (row : MYSQL_ROW) (rest : list MYSQL_ROW)
    (rd ex : string) :
  exec_query env c "SHOW SLAVE STATUS" = Some res ->
  rows res = row :: rest -> 33 <= num_fields res ->
  replica_stats db = true ->
  cell row READ_MASTER_LOG_POS_IDX = Some rd ->
  cell row EXEC_MASTER_LOG_POS_IDX = Some ex ->
  exists db' vals notifs,
    mysql_read_replica_stats env db c = Some (0, db', vals, notifs) /\
    map vl_values vals =
      [ [gauge (gauge_of_bool (is_yes (cell row SLAVE_SQL_RUNNING_IDX)))];
        [gauge (gauge_of_bool (is_yes (cell row SLAVE_IO_RUNNING_IDX)))];
        [derive (to_ll (to_ull (atoll rd)))];
        [derive (to_ll (to_ull (atoll ex)))] ]
      ++ match cell row SECONDS_BEHIND_MASTER_IDX with
         | Some s => [[gauge (atof s)]]
         | None => []
         end /\
    forall db2,
      instance db2 = instance db -> alias db2 = alias db ->
      host db2 = host db -> replica_stats db2 = true ->
      exists db3 notifs3,
        mysql_read_replica_stats env db2 c = Some (0, db3, vals, notifs3).
Proof.
  intros Hq Hrows Hcols Hstats Hrd Hex.
  unfold mysql_read_replica_stats. rewrite Hq, Hrows.
  destruct (Z.ltb_spec (num_fields res) 33) as [Hlt|_]; [lia|].
  unfold replica_stats_block. rewrite Hstats, Hrd, Hex.
  destruct (replica_notif_block env db row) as [db' notifs] eqn:Hblock.
  do 3 eexists. split; [reflexivity|]. split.
  - cbn [map app vl_values gauge_submit derive_submit submit].
    destruct (cell row SECONDS_BEHIND_MASTER_IDX); reflexivity.
  - intros db2 Hi Ha Hh Hs2. rewrite Hs2.
    destruct (replica_notif_block env db2 row) as [db3 notifs3].
    exists db3, notifs3.
    unfold gauge_submit, derive_submit, submit, set_host.
    rewrite Hi, Ha, Hh. reflexivity.
Qed.

(** X7: with replica notifications switched on, after a pass over a
    replica row each stored flag says what was observed in that row, and
    the pass dispatched one notification per flag that it changed. *)
Theorem replica_flags_follow_observation (env : environment)
    (db : mysql_database_t) (row : MYSQL_ROW) :
  replica_notif db = true ->
  replica_io_running (fst (replica_notif_block env db row))
    = is_yes (cell row SLAVE_IO_RUNNING_IDX) /\
  replica_sql_running (fst (replica_notif_block env db row))
    = is_yes (cell row SLAVE_SQL_RUNNING_IDX) /\
  List.length (snd (replica_notif_block env db row)) =
    ((if Bool.eqb (replica_io_running db)
            (is_yes (cell row SLAVE_IO_RUNNING_IDX)) then 0 else 1)
     + (if Bool.eqb (replica_sql_running db)
              (is_yes (cell row SLAVE_SQL_RUNNING_IDX)) then 0 else 1))%nat.
Proof.
  intros Hn. unfold replica_notif_block. rewrite Hn, !is_not_yes_negb.
  destruct (is_yes (cell row SLAVE_IO_RUNNING_IDX));
    destruct (replica_io_running db) eqn:Hsi;
    destruct (is_yes (cell row SLAVE_SQL_RUNNING_IDX));
    destruct (replica_sql_running db) eqn:Hss;
    cbn [negb andb fst snd set_replica_io_running set_replica_sql_running
         replica_io_running replica_sql_running];
    rewrite ?Hss; cbn [negb andb fst snd app List.length Bool.eqb
                       set_replica_io_running set_replica_sql_running
                       replica_io_running replica_sql_running];
    rewrite ?Hsi, ?Hss; repeat split.
Qed.

Lemma metrics_scan_some (metrics : list metric_entry) (k : string)
    (e : metric_entry) :
  metrics_scan metrics k = Some e -> In e metrics /\ fst (fst e) = k.
Proof.
  induction metrics as [|m rest IH]; cbn [metrics_scan]; [discriminate|].
  destruct (Z.eqb_spec (strcmp (fst (fst m)) k) 0) as [Hz|_].
  - intros [= <-]. split; [left; reflexivity | apply strcmp_zero, Hz].
  - intros H. destruct (IH H) as [Hin Hk]. split; [right; exact Hin | exact Hk].
Qed.

Lemma innodb_metrics_kinds :
  Forall (fun e : metric_entry =>
            snd e = DS_TYPE_GAUGE \/ snd e = DS_TYPE_DERIVE) innodb_metrics.
Proof.
  unfold innodb_metrics.
  repeat (apply Forall_cons; [cbn [snd]; auto|]). apply Forall_nil.
Qed.




Lemma innodb_stats_row_length (db : mysql_database_t) (row : MYSQL_ROW)
    (out : list value_list_t) :
  innodb_stats_row db row = Some out ->
  List.length out = rows_in_table innodb_metrics [row].
Proof.
  unfold innodb_stats_row. cbn [rows_in_table].
  destruct (cell row 0) as [k|]; [|discriminate].
  destruct (cell row 1) as [v|]; [|discriminate].
  destruct (metrics_scan innodb_metrics k) as [[[k' type] ds]|] eqn:Hscan.
  - destruct (metrics_scan_some _ _ _ Hscan) as [Hin _].
    pose proof (proj1 (Forall_forall _ _) innodb_metrics_kinds _ Hin) as Hkind.
    cbn [snd] in Hkind.
    destruct Hkind as [-> | ->]; intros [= <-]; reflexivity.
  - intros [= <-]. reflexivity.
Qed.

(** X10: when its statement succeeds, [mysql_read_innodb_stats] returns 0
    and dispatches as many values as the result has rows whose name is in
    the table, the first row counted like every other; when the statement
    fails it returns -1 and dispatches nothing. *)
Theorem innodb_stats_count (env : environment) (db : mysql_database_t)
    (c : MYSQL) (status : Z) (out : list value_list_t) :
  mysql_read_innodb_stats env db c = Some (status, out) ->
  match exec_query env c (innodb_metrics_query (mysql_version db)) with
  | Some res =>
      status = 0 /\
      List.length out = rows_in_table innodb_metrics (rows res)
  | None => status = -1 /\ out = []
  end.
Proof.
  unfold mysql_read_innodb_stats.
  destruct (exec_query env c (innodb_metrics_query (mysql_version db)))
    as [res|]; [|intros [= <- <-]; split; reflexivity].
  destruct (each_row (innodb_stats_row db) (rows res)) as [o|] eqn:Heach;
    [|discriminate].
  intros [= <- <-]. split; [reflexivity|].
  revert o Heach. induction (rows res) as [|row rest IH]; intros o.
  - intros [= <-]. reflexivity.
  - cbn [each_row].
    destruct (innodb_stats_row db row) as [o1|] eqn:Hrow; [|discriminate].
    destruct (each_row (innodb_stats_row db) rest) as [o2|]; [|discriminate].
    intros [= <-]. rewrite length_app, (IH o2 eq_refl).
    rewrite (innodb_stats_row_length db row o1 Hrow).
    cbn [rows_in_table]. destruct (cell row 0) as [k|]; [|reflexivity].
    destruct (metrics_scan innodb_metrics k); reflexivity.
Qed.

(** ** The whole read callback *)

Lemma replica_notif_block_frame (env : environment) (db : mysql_database_t)
    (row : MYSQL_ROW) :
  same_but_replica_flags db (fst (replica_notif_block env db row)) /\
  (replica_notif db = false -> replica_notif_block env db row = (db, [])).
Proof.
  unfold replica_notif_block, same_but_replica_flags. split.
  - repeat match goal with
           | |- context [if ?b then _ else _] => destruct b
           end; reflexivity.
  - intros ->. reflexivity.
Qed.

Lemma replica_part_frame (env : environment) (db db1 : mysql_database_t)
    (c : MYSQL) (out : list value_list_t) (notifs : list notification_t) :
  replica_part env db c = Some (db1, out, notifs) ->
  same_but_replica_flags db db1 /\
  (replica_notif db = false -> db1 = db /\ notifs = []).
Proof.
  assert (Hrefl : same_but_replica_flags db db) by reflexivity.
  unfold replica_part, mysql_read_replica_stats.
  destruct (replica_stats db || replica_notif db);
    [|intros [= <- _ <-]; auto].
  destruct (exec_query env c "SHOW SLAVE STATUS") as [res|];
    [|intros [= <- _ <-]; auto].
  destruct (rows res) as [|row rest]; [intros [= <- _ <-]; auto|].
  destruct (num_fields res <? 33); [intros [= <- _ <-]; auto|].
  destruct (replica_stats_block db row); [|discriminate].
  destruct (replica_notif_block_frame env db row) as [Hsame Hoff].
  destruct (replica_notif_block env db row) as [db' ns].
  intros [= <- _ <-]. split; [exact Hsame|].
  intros Hn. specialize (Hoff Hn). injection Hoff as -> ->. auto.
Qed.

(** X11: one call of [mysql_read] leaves of the instance what
    [getconnection] left, the two replica flags apart.  It returns 0 or
    -1; when it returns -1 it has dispatched no value and no notification
    and has not touched the replica flags; and for an instance with
    replica notifications switched off it never dispatches a notification
    and never touches the replica flags. *)
Theorem mysql_read_frame (env : environment) (db : mysql_database_t)
    (r : read_result) :
  mysql_read env db = Some r ->
  exists db0 p,
    getconnection env db = Some (db0, p, library_calls r) /\
    same_but_replica_flags db0 (db_after r) /\
    (ret r = 0 \/ ret r = -1) /\
    (ret r = -1 ->
     dispatched r = [] /\ notified r = [] /\ db_after r = db0) /\
    (replica_notif db = false -> notified r = [] /\ db_after r = db0).
Proof.
  unfold mysql_read.
  destruct (getconnection env db) as [[[db0 [c|]] calls]|] eqn:Hcon;
    [| intros [= <-]; exists db0, None; cbn; repeat split; auto
     | discriminate].
  destruct (exec_query env c (global_status_query (mysql_version db0)))
    as [res|]; [| intros [= <-]; exists db0, (Some c); cbn; repeat split; auto].
  destruct (status_rows db0 (rows res) read_acc_init) as [[a out_rows]|];
    [|discriminate].
  destruct (innodb_part env db0 c) as [inno|]; [|discriminate].
  destruct (primary_part env db0 c) as [prim|]; [|discriminate].
  destruct (replica_part env db0 c) as [[[db1 repl] notifs]|] eqn:Hr;
    [|discriminate].
  destruct (wsrep_part env db1 c) as [wsr|]; [|discriminate].
  intros [= <-]. exists db0, (Some c). cbn.
  destruct (replica_part_frame env db0 db1 c repl notifs Hr) as [Hsame Hoff].
  split; [reflexivity|]. split; [exact Hsame|]. split; [left; reflexivity|].
  split; [discriminate|].
  intros Hn.
  assert (Hn0 : replica_notif db0 = false)
    by (rewrite <- Hn;
        exact (getconnection_keeps_replica_notif env db db0 _ calls Hcon)).
  destruct (Hoff Hn0) as [-> ->]. split; reflexivity.
Qed.

(** ** More about the rows of the global status *)

(** Deciding the leading [if]s of the loop body on a key of known head. *)
Ltac decide_prefixes :=
  repeat match goal with
         | |- context [has_prefix (?p ++ ?t)%string ?q] =>
             first
               [ change (has_prefix (p ++ t)%string q) with false
               | rewrite (has_prefix_app p t) ];
             cbv iota
         end.

(** X12: a row whose key starts with none of the prefixes of the loop of
    [mysql_read] (the prefix Innodb_ counting only for an instance with
    InnoDB statistics switched on) and is neither Uptime nor Questions
    dispatches nothing and leaves the loop variables as they are. *)
Theorem unrecognised_row_ignored (db : mysql_database_t) (k v : string)
    (rest : MYSQL_ROW) (a : read_acc) :
  recognised_key (innodb_stats db) k = false ->
  status_row db (Some k :: Some v :: rest) a = Some (a, []).
Proof.
  unfold recognised_key. intros H.
  repeat match type of H with
         | (_ || _) = false => apply orb_false_elim in H; destruct H as [H ?]
         end.
  unfold status_row. cbn [cell nth].
  repeat match goal with
         | E : has_prefix k _ = false |- _ => rewrite E; clear E
         | E : _ && _ = false |- _ => rewrite E; clear E
         end.
  rewrite !strcmp_eqb.
  repeat match goal with
         | E : String.eqb k _ = false |- _ => rewrite E; clear E
         end.
  reflexivity.
Qed.

Lemma chain_select_in (c : chain) (k : string)
    (b : submit_kind * string * string) :
  chain_select c k = Some b -> In (k, b) c.
Proof.
  induction c as [|[k' b'] rest IH]; cbn [chain_select]; [discriminate|].
  destruct (Z.eqb_spec (strcmp k k') 0) as [Hz|_].
  - intros [= <-]. apply strcmp_zero in Hz. subst k'. left. reflexivity.
  - intros H. right. apply IH, H.
Qed.

Lemma chain_select_disjoint (k : string) :
  chain_select innodb_buffer_pool_chain k = None
  \/ chain_select innodb_data_chain k = None.
Proof.
  destruct (chain_select innodb_buffer_pool_chain k) as [b|] eqn:E;
    [right | left; reflexivity].
  apply chain_select_in in E. unfold innodb_buffer_pool_chain in E.
  cbn [In] in E.
  repeat (destruct E as [E|E]; [injection E as <- _; reflexivity|]).
  destruct E.
Qed.

Lemma chain_submit_values_len (b : option (submit_kind * string * string))
    (val : Z) (db : mysql_database_t) :
  Forall (fun vl => values_len vl = 1%nat) (chain_submit b val db) /\
  (List.length (chain_submit b val db) <= 1)%nat.
Proof.
  destruct b as [[[[] type] ti]|]; cbn; split; auto.
Qed.

(** X13: no key is taken by both chains of the Innodb_ block of
    [mysql_read]: a key that the buffer pool chain takes is refused by the
    chain that follows it.  So for an instance with InnoDB statistics
    switched on a row whose key starts with Innodb_ dispatches the value
    of the one chain that takes its key, or nothing, and never two
    values; and for an instance with InnoDB statistics switched off it
    dispatches nothing. *)
Theorem innodb_chains_disjoint (db : mysql_database_t) (t v : string)
    (rest : MYSQL_ROW) (a : read_acc) :
  let k := ("Innodb_" ++ t)%string in
  (chain_select innodb_buffer_pool_chain k = None
   \/ chain_select innodb_data_chain k = None) /\
  exists out,
    status_row db (Some k :: Some v :: rest) a = Some (a, out) /\
    (List.length out <= 1)%nat /\
    (innodb_stats db = false -> out = []) /\
    (innodb_stats db = true ->
     out = chain_submit (chain_select innodb_buffer_pool_chain k)
             (to_ull (atoll v)) db
           ++ chain_submit (chain_select innodb_data_chain k)
                (to_ull (atoll v)) db).
Proof.
  cbv zeta. split; [apply chain_select_disjoint|].
  unfold status_row. cbn [cell nth]. decide_prefixes.
  destruct (innodb_stats db); cbn [andb].
  - eexists. split; [reflexivity|]. split; [|split; [discriminate|auto]].
    rewrite length_app.
    destruct (chain_select_disjoint ("Innodb_" ++ t)) as [-> | ->];
      cbn [chain_submit List.length];
      match goal with
      | |- context [chain_submit ?b ?x ?d] =>
          pose proof (proj2 (chain_submit_values_len b x d))
      end; lia.
  - decide_prefixes.
    rewrite !strcmp_eqb.
    change (String.eqb ("Innodb_" ++ t) "Uptime") with false.
    change (String.eqb ("Innodb_" ++ t) "Questions") with false.
    cbv iota. eexists. split; [reflexivity|].
    split; [cbn; lia|]. split; [reflexivity | discriminate].
Qed.

Lemma status_row_values (db : mysql_database_t) (row : MYSQL_ROW)
    (a a' : read_acc) (out : list value_list_t) :
  status_row db row a = Some (a', out) ->
  (List.length out <= 1)%nat /\
  Forall (fun vl => values_len vl = 1%nat) out.
Proof.
  unfold status_row.
  destruct (cell row 0) as [k|]; [|discriminate].
  destruct (cell row 1) as [v|]; [|discriminate].
  destruct (chain_submit_values_len (chain_select innodb_buffer_pool_chain k)
              (to_ull (atoll v)) db) as [F1 L1].
  destruct (chain_submit_values_len (chain_select innodb_data_chain k)
              (to_ull (atoll v)) db) as [F2 L2].
  assert (L : (List.length
                 (chain_submit (chain_select innodb_buffer_pool_chain k)
                    (to_ull (atoll v)) db
                  ++ chain_submit (chain_select innodb_data_chain k)
                       (to_ull (atoll v)) db) <= 1)%nat).
  { rewrite length_app.
    destruct (chain_select_disjoint k) as [-> | ->]; cbn [chain_submit];
      cbn [List.length]; lia. }
  pose proof (proj2 (Forall_app _ _ _) (conj F1 F2)) as F.
  clear F1 F2 L1 L2.
  set (both := chain_submit (chain_select innodb_buffer_pool_chain k)
                 (to_ull (atoll v)) db
               ++ chain_submit (chain_select innodb_data_chain k)
                    (to_ull (atoll v)) db) in *.
  clearbody both.
  intros H. apply (f_equal (fun o => match o with
                                     | Some x => x
                                     | None => (a, [])
                                     end)) in H.
  cbv beta iota in H.
  repeat match type of H with
         | context [if ?b then _ else _] => destruct b
         end;
    apply pair_equal_spec in H; destruct H as [_ <-];
    first [ split; [exact L | exact F]
          | split; [cbn [List.length]; lia
                   | repeat (apply Forall_cons; [reflexivity|]);
                     apply Forall_nil] ].
Qed.


(** X14: the loop of [mysql_read] dispatches at most one value list per
    row of the result, each carrying exactly one value. *)
Theorem status_rows_values (db : mysql_database_t) (rs : list MYSQL_ROW)
    (a a' : read_acc) (out : list value_list_t) :
  status_rows db rs a = Some (a', out) ->
  (List.length out <= List.length rs)%nat /\
  Forall (fun vl => values_len vl = 1%nat) out.
Proof.
  revert a a' out. induction rs as [|row rest IH]; intros a a' out;
    cbn [status_rows].
  - intros [= <- <-]. split; [reflexivity | constructor].
  - destruct (status_row db row a) as [[a1 o1]|] eqn:Hrow; [|discriminate].
    destruct (status_rows db rest a1) as [[a2 o2]|] eqn:Hrest; [|discriminate].
    intros [= <- <-].
    destruct (status_row_values db row a a1 o1 Hrow) as [L1 F1].
    destruct (IH a1 a2 o2 Hrest) as [L2 F2].
    split; [rewrite length_app; cbn [List.length]; lia|].
    apply Forall_app. split; assumption.
Qed.



(** Deciding the tests of the loop body on a key that is a literal. *)
Ltac decide_literal_key :=
  repeat match goal with
         | |- context [has_prefix ?k ?p] =>
             let b := eval vm_compute in (has_prefix k p) in
             change (has_prefix k p) with b; cbv iota
         | |- context [String.eqb ?k ?p] =>
             let b := eval vm_compute in (String.eqb k p) in
             change (String.eqb k p) with b; cbv iota
         end.

Lemma status_row_sums (db : mysql_database_t) (k v : string)
    (rest : MYSQL_ROW) (a a1 : read_acc) (out : list value_list_t) :
  status_row db (Some k :: Some v :: rest) a = Some (a1, out) ->
  traffic_incoming a1 =
    (if String.eqb k "Bytes_received"
     then to_ull (traffic_incoming a + to_ull (atoll v))
     else traffic_incoming a) /\
  traffic_outgoing a1 =
    (if String.eqb k "Bytes_sent"
     then to_ull (traffic_outgoing a + to_ull (atoll v))
     else traffic_outgoing a) /\
  threads_created a1 =
    (if String.eqb k "Threads_created"
     then to_ll (to_ull (atoll v))
     else threads_created a).
Proof.
  unfold status_row. cbn [cell nth]. rewrite !strcmp_eqb.
  destruct (String.eqb_spec k "Bytes_received") as [->|N1];
    [decide_literal_key; rewrite ?andb_false_r; cbv iota;
     intros [= <- _]; repeat split|].
  destruct (String.eqb_spec k "Bytes_sent") as [->|N2];
    [decide_literal_key; rewrite ?andb_false_r; cbv iota;
     intros [= <- _]; repeat split|].
  destruct (String.eqb_spec k "Threads_created") as [->|N3];
    [decide_literal_key; rewrite ?andb_false_r; cbv iota;
     intros [= <- _]; repeat split|].
  intros H.
  apply (f_equal (fun o => match o with
                           | Some x => fst x
                           | None => a
                           end)) in H.
  cbv beta iota in H.
  repeat match type of H with
         | context [if ?b then _ else _] => destruct b
         end;
    cbn [fst] in H; subst a1; repeat split.
Qed.

Lemma to_ull_add_l (x y : Z) : to_ull (to_ull x + y) = to_ull (x + y).
Proof. unfold to_ull. apply Zplus_mod_idemp_l. Qed.

Lemma status_rows_traffic (db : mysql_database_t) (rs : list MYSQL_ROW) :
  forall a a' out,
    status_rows db rs a = Some (a', out) ->
    to_ull (traffic_incoming a') =
      to_ull (traffic_incoming a + sum_of_rows "Bytes_received" rs) /\
    to_ull (traffic_outgoing a') =
      to_ull (traffic_outgoing a + sum_of_rows "Bytes_sent" rs).
Proof.
  induction rs as [|row rest IH]; intros a a' out; cbn [status_rows].
  - intros [= <- <-]. cbn [sum_of_rows]. rewrite !Z.add_0_r. auto.
  - destruct (status_row db row a) as [[a1 o1]|] eqn:Hrow; [|discriminate].
    destruct (status_rows db rest a1) as [[a2 o2]|] eqn:Hrest; [|discriminate].
    intros [= <- <-]. destruct (IH a1 a2 o2 Hrest) as [Hin Hout].
    rewrite Hin, Hout. clear IH Hin Hout Hrest.
    unfold status_row in Hrow. cbn [sum_of_rows].
    destruct row as [|[k|] [|[v|] rest']]; cbn [cell nth] in *;
      try discriminate.
    fold (status_row db (Some k :: Some v :: rest') a) in Hrow.
    destruct (status_row_sums db k v rest' a a1 o1) as (-> & -> & _).
    { unfold status_row. cbn [cell nth]. exact Hrow. }
    destruct (String.eqb k "Bytes_received");
      destruct (String.eqb k "Bytes_sent");
      rewrite ?to_ull_add_l; split; f_equal; lia.
Qed.

Lemma status_rows_traffic_range (db : mysql_database_t)
    (rs : list MYSQL_ROW) :
  forall a0 a1 o,
    status_rows db rs a0 = Some (a1, o) ->
    0 <= traffic_incoming a0 < 2 ^ 64 ->
    0 <= traffic_outgoing a0 < 2 ^ 64 ->
    0 <= traffic_incoming a1 < 2 ^ 64 /\
    0 <= traffic_outgoing a1 < 2 ^ 64.
Proof.
  induction rs as [|row rest IH]; intros a0 a1 o; cbn [status_rows].
  - intros [= <- <-]. auto.
  - destruct (status_row db row a0) as [[a2 o2]|] eqn:Hrow; [|discriminate].
    destruct (status_rows db rest a2) as [[a3 o3]|] eqn:Hrest;
      [|discriminate].
    intros [= <- <-] Hi Ho. apply (IH a2 a3 o3 Hrest).
    + destruct row as [|[k|] [|[v|] rest']];
        try (unfold status_row in Hrow; cbn [cell nth] in Hrow;
             discriminate).
      destruct (status_row_sums db k v rest' a0 a2 o2 Hrow) as (-> & _ & _).
      destruct (String.eqb k "Bytes_received");
        [apply to_ull_range | exact Hi].
    + destruct row as [|[k|] [|[v|] rest']];
        try (unfold status_row in Hrow; cbn [cell nth] in Hrow;
             discriminate).
      destruct (status_row_sums db k v rest' a0 a2 o2 Hrow) as (_ & -> & _).
      destruct (String.eqb k "Bytes_sent");
        [apply to_ull_range | exact Ho].
Qed.

(** X17: over the rows of one global status result, the traffic counters
    of [mysql_read] add up, modulo 2^64, the values of all rows whose key
    is Bytes_received and of all rows whose key is Bytes_sent. *)
Theorem traffic_totals (db : mysql_database_t) (rs : list MYSQL_ROW)
    (a : read_acc) (out : list value_list_t) :
  status_rows db rs read_acc_init = Some (a, out) ->
  traffic_incoming a = to_ull (sum_of_rows "Bytes_received" rs) /\
  traffic_outgoing a = to_ull (sum_of_rows "Bytes_sent" rs).
Proof.
  intros H.
  destruct (status_rows_traffic_range db rs read_acc_init a out H)
    as [Ri Ro]; [cbn; lia | cbn; lia |].
  destruct (status_rows_traffic db rs read_acc_init a out H) as [Hi Ho].
  cbn [traffic_incoming traffic_outgoing read_acc_init] in Hi, Ho.
  rewrite Z.add_0_l in Hi, Ho. rewrite <- Hi, <- Ho.
  unfold to_ull. rewrite !Z.mod_small by assumption. auto.
Qed.

Lemma status_rows_threads_created (db : mysql_database_t)
    (rs : list MYSQL_ROW) :
  forall a a' out,
    status_rows db rs a = Some (a', out) ->
    threads_created a' =
      match last_value "Threads_created" rs with
      | Some v => to_ll v
      | None => threads_created a
      end.
Proof.
  induction rs as [|row rest IH]; intros a a' out; cbn [status_rows].
  - intros [= <- <-]. reflexivity.
  - destruct (status_row db row a) as [[a1 o1]|] eqn:Hrow; [|discriminate].
    destruct (status_rows db rest a1) as [[a2 o2]|] eqn:Hrest; [|discriminate].
    intros [= <- <-]. rewrite (IH a1 a2 o2 Hrest). cbn [last_value].
    destruct (last_value "Threads_created" rest); [reflexivity|].
    destruct row as [|[k|] [|[v|] rest']];
      try (unfold status_row in Hrow; cbn [cell nth] in Hrow; discriminate).
    destruct (status_row_sums db k v rest' a a1 o1 Hrow) as (_ & _ & ->).
    cbn [cell nth]. destruct (String.eqb k "Threads_created"); reflexivity.
Qed.

Lemma last_value_range (name : string) (rs : list MYSQL_ROW) (v : Z) :
  last_value name rs = Some v -> 0 <= v < 2 ^ 64.
Proof.
  induction rs as [|row rest IH]; cbn [last_value]; [discriminate|].
  destruct (last_value name rest) as [w|].
  - intros [= <-]. apply IH. reflexivity.
  - destruct (cell row 0) as [k|]; [|discriminate].
    destruct (cell row 1) as [x|]; [|discriminate].
    destruct (String.eqb k name); [|discriminate].
    intros [= <-]. apply to_ull_range.
Qed.

(** X18: after the loop over one global status result, the thread values
    are dispatched exactly when the result has a row Threads_created and
    the value of the last such row is not zero; they are three gauges
    (running, connected, cached) followed by the derive value of that
    row, the gauges being whatever the loop left, NAN included. *)
Theorem threads_batch (db : mysql_database_t) (rs : list MYSQL_ROW)
    (a : read_acc) (out : list value_list_t) :
  status_rows db rs read_acc_init = Some (a, out) ->
  (threads_block db a <> [] <->
   exists v, last_value "Threads_created" rs = Some v /\ v <> 0) /\
  (forall v, last_value "Threads_created" rs = Some v -> v <> 0 ->
   map vl_values (threads_block db a) =
     [ [gauge (threads_running a)]; [gauge (threads_connected a)];
       [gauge (threads_cached a)]; [derive (to_ll v)] ]).
Proof.
  intros H.
  pose proof (status_rows_threads_created db rs read_acc_init a out H) as Hc.
  cbn [threads_created read_acc_init] in Hc.
  unfold threads_block. split.
  - destruct (last_value "Threads_created" rs) as [v|] eqn:Hl.
    + pose proof (last_value_range _ _ _ Hl) as Hr.
      pose proof (to_ll_zero v Hr) as Hz. rewrite Hc.
      destruct (Z.eqb_spec (to_ll v) 0) as [E|E]; cbn [negb]; split.
      * intros Hne. exfalso. apply Hne. reflexivity.
      * intros (w & [= <-] & Hw). exfalso. apply Hw, Hz, E.
      * intros _. exists v. split; [reflexivity|]. intros ->.
        apply E, Hz. reflexivity.
      * intros _. discriminate.
    + rewrite Hc. cbn [Z.eqb negb]. split.
      * intros Hne. exfalso. apply Hne. reflexivity.
      * intros (w & Hw & _). discriminate Hw.
  - intros v Hl Hv. rewrite Hl in Hc.
    pose proof (last_value_range _ _ _ Hl) as Hr.
    pose proof (to_ll_zero v Hr) as Hz. rewrite Hc.
    destruct (Z.eqb_spec (to_ll v) 0) as [E|E];
      [exfalso; apply Hv, Hz, E | reflexivity].
Qed.






(** ** Configuration *)

Lemma config_option_known (cf : config_helpers) (db : mysql_database_t)
    (child : oconfig_item_t) :
  fst (config_option cf db child) = 0 -> known_option (ci_key child) = true.
Proof.
  unfold config_option, known_option, database_options. cbn [existsb].
  repeat (destruct (strcasecmp _ (ci_key child) =? 0);
          [intros _; rewrite ?orb_true_r; reflexivity | cbn [orb]]).
  cbn [fst]. discriminate.
Qed.

Lemma config_option_keeps (cf : config_helpers) (db : mysql_database_t)
    (child : oconfig_item_t) :
  let db' := snd (config_option cf db child) in
  instance db' = instance db /\
  replica_io_running db' = replica_io_running db /\
  replica_sql_running db' = replica_sql_running db /\
  con db' = con db /\ is_connected db' = is_connected db /\
  mysql_version db' = mysql_version db.
Proof.
  unfold config_option.
  repeat match goal with
         | |- context [if ?b then _ else _] => destruct b
         | |- context [let '(_, _) := ?p in _] => destruct p
         end; cbn; repeat split.
Qed.

Lemma config_options_spec (cf : config_helpers)
    (children : list oconfig_item_t) :
  forall db,
    let r := config_options cf db children in
    (fst r = 0 ->
     Forall (fun child => known_option (ci_key child) = true) children) /\
    instance (snd r) = instance db /\
    replica_io_running (snd r) = replica_io_running db /\
    replica_sql_running (snd r) = replica_sql_running db /\
    con (snd r) = con db /\ is_connected (snd r) = is_connected db /\
    mysql_version (snd r) = mysql_version db.
Proof.
  induction children as [|child rest IH]; intros db; cbn [config_options].
  - cbn. repeat split. constructor.
  - pose proof (config_option_known cf db child) as Hk.
    pose proof (config_option_keeps cf db child) as Hf. cbv zeta in Hf.
    destruct (config_option cf db child) as [status db1]. cbn [fst snd] in *.
    destruct (Z.eqb_spec status 0) as [->|Hne].
    + specialize (IH db1). cbv zeta in IH.
      destruct IH as (I0 & I1 & I2 & I3 & I4 & I5 & I6).
      destruct Hf as (F1 & F2 & F3 & F4 & F5 & F6).
      repeat split; try congruence.
      intros H0. constructor; [apply Hk; reflexivity | apply I0, H0].
    + cbn [fst snd]. destruct Hf as (F1 & F2 & F3 & F4 & F5 & F6).
      repeat split; try assumption. intros H0. contradiction.
Qed.

(** X20: [mysql_config_database] registers an instance exactly when it
    returns 0.  A block whose values are not one single string is refused
    with -1, and so is every block that has a child whose key is none of
    the option names (in any letter case), whatever the other children
    are: nothing is registered for it. *)
Theorem config_database_outcome (cf : config_helpers) (ci : oconfig_item_t)
    (status : Z) (made : option registration) :
  mysql_config_database cf ci = Some (status, made) ->
  (status = 0 <-> made <> None) /\
  ((forall s, ci_values ci <> [OCONFIG_TYPE_STRING s]) ->
   status = -1 /\ made = None) /\
  ((exists child, In child (ci_children ci)
                  /\ known_option (ci_key child) = false) ->
   status <> 0 /\ made = None).
Proof.
  unfold mysql_config_database.
  assert (Hrefused : forall st : Z, st <> 0 ->
            (st = 0 <-> @None registration <> None) /\
            ((exists child, In child (ci_children ci)
                            /\ known_option (ci_key child) = false) ->
             st <> 0 /\ @None registration = None)).
  { intros st Hst. split.
    - split; [intros E; contradiction | intros E; exfalso; apply E; reflexivity].
    - intros _. split; [exact Hst | reflexivity]. }
  destruct (ci_values ci) as [|[s|n|b] [|v2 vs]];
    try (intros [= <- <-];
         destruct (Hrefused (-1)) as [R1 R2]; [discriminate|];
         split; [exact R1|]; split; [intros _; split; reflexivity | exact R2]).
  destruct (cf_util_get_string cf ci None) as [st name].
  destruct (Z.eqb_spec st 0) as [->|Hne]; cbn [negb].
  - destruct name as [n|]; [|discriminate].
    pose proof (config_options_spec cf (ci_children ci) (db_initial n))
      as Hspec. cbv zeta in Hspec. destruct Hspec as (Hknown & _).
    destruct (config_options cf (db_initial n) (ci_children ci))
      as [st' db]. cbn [fst] in Hknown.
    destruct (Z.eqb_spec st' 0) as [->|Hne'].
    + intros [= <- <-].
      split; [split; [intros _; discriminate | reflexivity]|].
      split; [intros Hv; exfalso; apply (Hv s); reflexivity|].
      intros (child & Hin & Hunknown).
      pose proof (proj1 (Forall_forall _ _) (Hknown eq_refl) child Hin).
      congruence.
    + intros [= <- <-].
      destruct (Hrefused (-1)) as [R1 R2]; [discriminate|].
      split; [exact R1|].
      split; [intros Hv; exfalso; apply (Hv s); reflexivity | exact R2].
  - intros [= <- <-]. destruct (Hrefused st Hne) as [R1 R2].
    split; [exact R1|].
    split; [intros Hv; exfalso; apply (Hv s); reflexivity | exact R2].
Qed.

(** X21: the instance that [mysql_config_database] registers carries the
    name that [cf_util_get_string] read from the block, both replica
    flags set, no session object, no connected mark and server version
    0, whatever options the block has; its callback is named with the
    format mysql-%s on that name.  The first [getconnection] on it
    therefore neither probes nor closes anything: its first library call
    is [mysql_init]. *)
Theorem registered_instance (cf : config_helpers) (ci : oconfig_item_t)
    (status : Z) (rg : registration) :
  mysql_config_database cf ci = Some (status, Some rg) ->
  cf_util_get_string cf ci None = (0, Some (instance (cb_data rg))) /\
  cb_name rg =
    ssnprintf cf "mysql-%s" (instance (cb_data rg)) DATA_MAX_NAME_LEN /\
  replica_io_running (cb_data rg) = true /\
  replica_sql_running (cb_data rg) = true /\
  con (cb_data rg) = None /\
  is_connected (cb_data rg) = false /\
  mysql_version (cb_data rg) = 0 /\
  forall env, exists db' p calls,
    getconnection env (cb_data rg) = Some (db', p, call_init :: calls).
Proof.
  unfold mysql_config_database.
  destruct (ci_values ci) as [|[s|n|b] [|v2 vs]]; try discriminate.
  destruct (cf_util_get_string cf ci None) as [st name].
  destruct (Z.eqb_spec st 0) as [->|Hne]; cbn [negb]; [|discriminate].
  destruct name as [n|]; [|discriminate].
  pose proof (config_options_spec cf (ci_children ci) (db_initial n))
    as Hspec. cbv zeta in Hspec.
  destruct Hspec as (_ & S1 & S2 & S3 & S4 & S5 & S6).
  destruct (config_options cf (db_initial n) (ci_children ci)) as [st' db].
  cbn [snd db_initial instance replica_io_running replica_sql_running con
       is_connected mysql_version] in *.
  destruct (st' =? 0); [|discriminate].
  intros [= _ <-]. cbn [cb_name cb_data].
  repeat split; try assumption; try congruence.
  intros env. unfold getconnection, getconnection_reconnect.
  rewrite S5, S4.
  destruct (mysql_init env) as [h|];
    [destruct (mysql_real_connect env h)|]; do 3 eexists; reflexivity.
Qed.

Lemma config_blocks_spec (cf : config_helpers)
    (children : list oconfig_item_t) :
  forall regs, config_blocks cf children = Some regs ->
  forall rg,
    In rg regs <->
    exists child,
      In child children /\
      strcasecmp "Database" (ci_key child) = 0 /\
      exists status, mysql_config_database cf child = Some (status, Some rg).
Proof.
  induction children as [|child rest IH]; intros regs; cbn [config_blocks].
  - intros [= <-] rg. split; [contradiction|].
    intros (c & Hin & _). contradiction.
  - destruct (Z.eqb_spec (strcasecmp "Database" (ci_key child)) 0)
      as [Hdb|Hdb].
    + destruct (mysql_config_database cf child) as [[st made]|] eqn:Hblock;
        [|discriminate].
      destruct (config_blocks cf rest) as [regs'|]; [|discriminate].
      intros [= <-] rg. specialize (IH regs' eq_refl rg). split.
      * intros Hin.
        assert (Hcase : made = Some rg \/ In rg regs').
        { destruct made as [rg'|]; [destruct Hin as [->|Hin]|]; auto. }
        destruct Hcase as [-> | Hin'].
        -- exists child. split; [left; reflexivity|].
           split; [exact Hdb|]. exists st. exact Hblock.
        -- destruct (proj1 IH Hin') as (c & Hc & Hrest).
           exists c. split; [right; exact Hc | exact Hrest].
      * intros (c & [<- | Hc] & Hk & st' & Hb).
        -- rewrite Hblock in Hb. injection Hb as _ ->. left. reflexivity.
        -- assert (In rg regs') by (apply IH; exists c; eauto).
           destruct made; [right|]; assumption.
    + intros Hrest rg. specialize (IH regs Hrest rg). split.
      * intros Hin. destruct (proj1 IH Hin) as (c & Hc & Hk).
        exists c. split; [right; exact Hc | exact Hk].
      * intros (c & [<- | Hc] & Hk & Hb); [contradiction|].
        apply IH. exists c. eauto.
Qed.

(** X22: [mysql_config] on a plugin block returns 0 whatever its children
    are, and the instances it registers are exactly those that
    [mysql_config_database] registers for the children whose key is
    Database in any letter case: a child of another key, or a Database
    block that is refused, registers nothing and does not keep the other
    blocks from being registered.  Without a block it returns EINVAL and
    registers nothing. *)
Theorem config_registrations (cf : config_helpers) (item : oconfig_item_t)
    (status : Z) (regs : list registration) :
  mysql_config cf (Some item) = Some (status, regs) ->
  status = 0 /\
  (forall rg,
     In rg regs <->
     exists child,
       In child (ci_children item) /\
       strcasecmp "Database" (ci_key child) = 0 /\
       exists st, mysql_config_database cf child = Some (st, Some rg)) /\
  mysql_config cf None = Some (EINVAL cf, []).
Proof.
  unfold mysql_config.
  destruct (config_blocks cf (ci_children item)) as [regs'|] eqn:Hblocks;
    [|discriminate].
  intros [= <- <-]. split; [reflexivity|]. split; [|reflexivity].
  apply config_blocks_spec, Hblocks.
Qed.

Lemma status_row_qcache (db : mysql_database_t) (k v : string)
    (rest : MYSQL_ROW) (a a1 : read_acc) (out : list value_list_t) :
  status_row db (Some k :: Some v :: rest) a = Some (a1, out) ->
  qcache_hits a1 =
    (if String.eqb k "Qcache_hits" then to_ll (to_ull (atoll v))
     else qcache_hits a) /\
  qcache_inserts a1 =
    (if String.eqb k "Qcache_inserts" then to_ll (to_ull (atoll v))
     else qcache_inserts a) /\
  qcache_not_cached a1 =
    (if String.eqb k "Qcache_not_cached" then to_ll (to_ull (atoll v))
     else qcache_not_cached a) /\
  qcache_lowmem_prunes a1 =
    (if String.eqb k "Qcache_lowmem_prunes" then to_ll (to_ull (atoll v))
     else qcache_lowmem_prunes a).
Proof.
  unfold status_row. cbn [cell nth]. rewrite !strcmp_eqb.
  destruct (String.eqb_spec k "Qcache_hits") as [->|N1];
    [decide_literal_key; intros [= <- _]; repeat split|].
  destruct (String.eqb_spec k "Qcache_inserts") as [->|N2];
    [decide_literal_key; intros [= <- _]; repeat split|].
  destruct (String.eqb_spec k "Qcache_not_cached") as [->|N3];
    [decide_literal_key; intros [= <- _]; repeat split|].
  destruct (String.eqb_spec k "Qcache_lowmem_prunes") as [->|N4];
    [decide_literal_key; intros [= <- _]; repeat split|].
  intros H.
  apply (f_equal (fun o => match o with
                           | Some x => fst x
                           | None => a
                           end)) in H.
  cbv beta iota in H.
  repeat match type of H with
         | context [if ?b then _ else _] => destruct b
         end;
    cbn [fst] in H; subst a1; repeat split.
Qed.

Lemma status_rows_qcache (db : mysql_database_t) (rs : list MYSQL_ROW) :
  forall a a' out,
    status_rows db rs a = Some (a', out) ->
    qcache_hits a' =
      match last_value "Qcache_hits" rs with
      | Some v => to_ll v | None => qcache_hits a end /\
    qcache_inserts a' =
      match last_value "Qcache_inserts" rs with
      | Some v => to_ll v | None => qcache_inserts a end /\
    qcache_not_cached a' =
      match last_value "Qcache_not_cached" rs with
      | Some v => to_ll v | None => qcache_not_cached a end /\
    qcache_lowmem_prunes a' =
      match last_value "Qcache_lowmem_prunes" rs with
      | Some v => to_ll v | None => qcache_lowmem_prunes a end.
Proof.
  induction rs as [|row rest IH]; intros a a' out; cbn [status_rows].
  - intros [= <- <-]. repeat split.
  - destruct (status_row db row a) as [[a1 o1]|] eqn:Hrow; [|discriminate].
    destruct (status_rows db rest a1) as [[a2 o2]|] eqn:Hrest; [|discriminate].
    intros [= <- <-].
    destruct (IH a1 a2 o2 Hrest) as (-> & -> & -> & ->).
    cbn [last_value].
    destruct row as [|[k|] [|[v|] rest']];
      try (unfold status_row in Hrow; cbn [cell nth] in Hrow; discriminate).
    destruct (status_row_qcache db k v rest' a a1 o1 Hrow)
      as (-> & -> & -> & ->).
    cbn [cell nth].
    destruct (last_value "Qcache_hits" rest),
      (last_value "Qcache_inserts" rest),
      (last_value "Qcache_not_cached" rest),
      (last_value "Qcache_lowmem_prunes" rest);
      destruct (String.eqb k "Qcache_hits"),
        (String.eqb k "Qcache_inserts"),
        (String.eqb k "Qcache_not_cached"),
        (String.eqb k "Qcache_lowmem_prunes"); repeat split.
Qed.

Lemma last_value_nonzero (name : string) (rs : list MYSQL_ROW) :
  match last_value name rs with Some v => to_ll v | None => 0 end <> 0 <->
  exists v, last_value name rs = Some v /\ v <> 0.
Proof.
  destruct (last_value name rs) as [v|] eqn:Hl.
  - pose proof (to_ll_zero v (last_value_range _ _ _ Hl)) as Hz. split.
    + intros H. exists v. split; [reflexivity|]. intros E. apply H, Hz, E.
    + intros (w & [= <-] & Hw) E. apply Hw, Hz, E.
  - split; [intros H; exfalso; apply H; reflexivity|].
    intros (w & Hw & _). discriminate Hw.
Qed.

(** X23: after the loop over one global status result, the query cache
    values are dispatched exactly when, for one of the keys Qcache_hits,
    Qcache_inserts, Qcache_not_cached and Qcache_lowmem_prunes, the
    result has a row and the value of the last such row is not zero; a
    result without any of these rows dispatches none, whatever its row
    Qcache_queries_in_cache says. *)
Theorem qcache_batch_rows (db : mysql_database_t) (rs : list MYSQL_ROW)
    (a : read_acc) (out : list value_list_t) :
  status_rows db rs read_acc_init = Some (a, out) ->
  (qcache_block db a <> [] <->
   exists name v,
     In name [ "Qcache_hits"; "Qcache_inserts"; "Qcache_not_cached";
               "Qcache_lowmem_prunes" ] /\
     last_value name rs = Some v /\ v <> 0).
Proof.
  intros H.
  destruct (status_rows_qcache db rs read_acc_init a out H)
    as (Hh & Hi & Hn & Hp).
  assert (Lh : qcache_hits a <> 0 <->
               exists v, last_value "Qcache_hits" rs = Some v /\ v <> 0)
    by (rewrite Hh; apply last_value_nonzero).
  assert (Li : qcache_inserts a <> 0 <->
               exists v, last_value "Qcache_inserts" rs = Some v /\ v <> 0)
    by (rewrite Hi; apply last_value_nonzero).
  assert (Ln : qcache_not_cached a <> 0 <->
               exists v, last_value "Qcache_not_cached" rs = Some v
                         /\ v <> 0)
    by (rewrite Hn; apply last_value_nonzero).
  assert (Lp : qcache_lowmem_prunes a <> 0 <->
               exists v, last_value "Qcache_lowmem_prunes" rs = Some v
                         /\ v <> 0)
    by (rewrite Hp; apply last_value_nonzero).
  assert (Hblock : qcache_block db a <> [] <->
                   (qcache_hits a <> 0 \/ qcache_inserts a <> 0
                    \/ qcache_not_cached a <> 0
                    \/ qcache_lowmem_prunes a <> 0)).
  { unfold qcache_block.
    destruct (Z.eqb_spec (qcache_hits a) 0);
      destruct (Z.eqb_spec (qcache_inserts a) 0);
      destruct (Z.eqb_spec (qcache_not_cached a) 0);
      destruct (Z.eqb_spec (qcache_lowmem_prunes a) 0); cbn [negb orb];
      (split; [intros Hne; try (exfalso; apply Hne; reflexivity); auto
              | intros Hnz; try discriminate;
                exfalso; destruct Hnz as [?|[?|[?|?]]]; auto]). }
  destruct Hblock as [Hfw Hbw].
  split.
  - intros Hne. destruct (Hfw Hne) as [E | [E | [E | E]]].
    + destruct (proj1 Lh E) as (v & Hv & Hz).
      exists "Qcache_hits", v. cbn [In]. auto.
    + destruct (proj1 Li E) as (v & Hv & Hz).
      exists "Qcache_inserts", v. cbn [In]. auto.
    + destruct (proj1 Ln E) as (v & Hv & Hz).
      exists "Qcache_not_cached", v. cbn [In]. auto 6.
    + destruct (proj1 Lp E) as (v & Hv & Hz).
      exists "Qcache_lowmem_prunes", v. cbn [In]. auto 6.
  - intros (name & v & Hin & Hv & Hz). apply Hbw. cbn [In] in Hin.
    destruct Hin as [<- | [<- | [<- | [<- | []]]]].
    + left. apply Lh. eauto.
    + right. left. apply Li. eauto.
    + right. right. left. apply Ln. eauto.
    + right. right. right. apply Lp. eauto.
Qed.

(** X24: in [mysql_read_replica_stats] the values and the notifications
    are switched separately: with replica statistics off it dispatches no
    value, with replica notifications off no notification, and the other
    of the two is dispatched all the same; and it returns -1 only having
    dispatched nothing at all. *)
Theorem replica_switches (env : environment) (db db' : mysql_database_t)
    (c : MYSQL) (status : Z) (vals : list value_list_t)
    (notifs : list notification_t) :
  mysql_read_replica_stats env db c = Some (status, db', vals, notifs) ->
  (replica_stats db = false -> vals = []) /\
  (replica_notif db = false -> notifs = [] /\ db' = db) /\
  (status = -1 -> vals = [] /\ notifs = [] /\ db' = db) /\
  (status = 0 ->
   exists res row rest,
     exec_query env c "SHOW SLAVE STATUS" = Some res /\
     rows res = row :: rest /\
     replica_stats_block db row = Some vals /\
     replica_notif_block env db row = (db', notifs)).
Proof.
  unfold mysql_read_replica_stats.
  destruct (exec_query env c "SHOW SLAVE STATUS") as [res|];
    [|(intros [= <- <- <- <-];
     split; [intros _; reflexivity|];
     split; [intros _; split; reflexivity|];
     split; [intros _; repeat split | discriminate])].
  destruct (rows res) as [|row rest] eqn:Hrows;
    [(intros [= <- <- <- <-];
     split; [intros _; reflexivity|];
     split; [intros _; split; reflexivity|];
     split; [intros _; repeat split | discriminate])|].
  destruct (num_fields res <? 33);
    [(intros [= <- <- <- <-];
     split; [intros _; reflexivity|];
     split; [intros _; split; reflexivity|];
     split; [intros _; repeat split | discriminate])|].
  destruct (replica_stats_block db row) as [o|] eqn:Hvals; [|discriminate].
  destruct (replica_notif_block env db row) as [d ns] eqn:Hblock.
  intros [= <- <- <- <-].
  split; [|split; [|split]].
  - intros Hoff. unfold replica_stats_block in Hvals. rewrite Hoff in Hvals.
    injection Hvals as <-. reflexivity.
  - intros Hoff. unfold replica_notif_block in Hblock.
    rewrite Hoff in Hblock. injection Hblock as <- <-. split; reflexivity.
  - discriminate.
  - intros _. exists res, row, rest. repeat split; assumption.
Qed.

End Plugin.

(** ** The theorems at the example data *)

Lemma global_status_query_cutoff_witness :
  global_status_query 50001 = "SHOW STATUS" /\
  global_status_query 80036 = "SHOW GLOBAL STATUS".
Proof.
  split.
  - apply (proj1 (global_status_query_cutoff 50001)). lia.
  - apply (proj1 (proj2 (global_status_query_cutoff 80036))). lia.
Defined.

Lemma host_label_resolution_witness :
  vl_host (submit "monitor01" Sample.bounded_copy 128 "uptime" None []
             (Sample.db None (Some "") true)) = "monitor01" /\
  vl_host (submit "monitor01" Sample.bounded_copy 128 "uptime" None []
             (Sample.db (Some "shop-db") (Some "10.0.0.5") true)) = "shop-db" /\
  vl_host (submit "monitor01" Sample.bounded_copy 128 "uptime" None []
             (Sample.db None (Some "10.0.0.5") true)) = "10.0.0.5".
Proof.
  split; [|split].
  - apply (proj2 (proj2 (proj2 (proj2
      (host_label_resolution "monitor01" Sample.bounded_copy 128 Sample.env
         (Sample.db None (Some "") true) "uptime" None []
         NOTIF_OKAY ""))))); reflexivity.
  - apply (proj1 (proj2
      (host_label_resolution "monitor01" Sample.bounded_copy 128 Sample.env
         (Sample.db (Some "shop-db") (Some "10.0.0.5") true) "uptime" None []
         NOTIF_OKAY "")) "shop-db"); reflexivity.
  - apply (proj1 (proj2 (proj2 (proj2
      (host_label_resolution "monitor01" Sample.bounded_copy 128 Sample.env
         (Sample.db None (Some "10.0.0.5") true) "uptime" None []
         NOTIF_OKAY "")))) "10.0.0.5"); try reflexivity; discriminate.
Defined.


Lemma qcache_batch_witness :
  List.length
    (qcache_block "monitor01" Sample.bounded_copy 128
       (Sample.db None None true)
       (set_qcache read_acc_init 7 0 0 0 NAN)) = 5%nat.
Proof.
  apply (proj2
    (qcache_batch "monitor01" Sample.bounded_copy 128
       (Sample.db None None true)
       [[Some "Qcache_hits"; Some "7"]]
       (set_qcache read_acc_init 7 0 0 0 NAN) [] eq_refl)).
  left. discriminate.
Defined.

Lemma status_values_read_by_atoll_witness :
  status_row "monitor01" Sample.bounded_copy 128 (Sample.db None None true)
    [Some "Uptime"; Some "abc"] read_acc_init =
  Some (read_acc_init,
        [gauge_submit "monitor01" Sample.bounded_copy 128 "uptime" None
           (gauge_of_ull 0) (Sample.db None None true)]) /\
  atoll "12abc" = 12 /\
  exists r,
    mysql_read "monitor01" Sample.bounded_copy 128 Sample.env
      (db_initial "db1") = Some r /\
    ret r = 0.
Proof.
  pose proof (status_values_read_by_atoll "monitor01" Sample.bounded_copy
                128 (Sample.db None None true) "Uptime" "abc" []
                read_acc_init) as T.
  split; [|split].
  - exact (proj1 (proj2 (proj2 (proj2
             (proj1 (proj2 (proj2 (proj2 (proj2 (proj2 T))))) eq_refl))))).
  - exact (proj1 (proj2 (proj1 T 12%N "abc" eq_refl))).
  - assert (E : exists d0 calls,
               getconnection Sample.env (db_initial "db1") =
                 Some (d0, Some 1%nat, calls) /\
               mysql_version d0 = 50730 /\
               innodb_stats d0 = false /\ primary_stats d0 = false /\
               replica_stats d0 = false /\ replica_notif d0 = false /\
               wsrep_stats d0 = false)
      by (vm_compute; do 2 eexists; repeat split).
    destruct E as (d0 & calls & Hget & Hv & Hi & Hp & Hr & Hn & Hw).
    assert (Hq : exec_query Sample.env 1%nat
                   (global_status_query (mysql_version d0)) =
                 Some Sample.global_status)
      by (rewrite Hv; reflexivity).
    assert (Hrows : Forall has_key_and_value (rows Sample.global_status))
      by (repeat (apply Forall_cons; [do 3 eexists; reflexivity|]);
          apply Forall_nil).
    destruct (proj2 (proj2 (proj2 (proj2 (proj2 (proj2 (proj2 (proj2
                (proj2 (proj2 T)))))))))
                Sample.env (db_initial "db1") d0 1%nat calls
                Sample.global_status Hget Hq Hrows Hi Hp Hr Hn Hw)
      as (a1 & out & _ & Hread).
    eexists. split; [exact Hread | reflexivity].
Defined.

(** The value 12abc is not a decimal ASCII integer, yet it does not count
    as zero: it is read as 12, and an Uptime row with it dispatches the
    gauge 12, not what the row with the value 0 dispatches. *)
Lemma status_values_read_by_atoll_counterexample :
  decimal_integer "12abc" = false /\
  to_ull (atoll "12abc") = 12 /\
  status_row "monitor01" Sample.bounded_copy 128 (Sample.db None None true)
    [Some "Uptime"; Some "12abc"] read_acc_init =
  Some (read_acc_init,
        [gauge_submit "monitor01" Sample.bounded_copy 128 "uptime" None
           (gauge_of_ull 12) (Sample.db None None true)]) /\
  status_row "monitor01" Sample.bounded_copy 128 (Sample.db None None true)
    [Some "Uptime"; Some "12abc"] read_acc_init
  <> status_row "monitor01" Sample.bounded_copy 128
       (Sample.db None None true) [Some "Uptime"; Some "0"] read_acc_init.
Proof.
  split; [reflexivity|]. split; [reflexivity|]. split; [reflexivity|].
  intros H. vm_compute in H. discriminate H.
Qed.

Lemma replica_result_too_small_witness :
  mysql_read_replica_stats "monitor01" Sample.bounded_copy 128
    Sample.env_narrow (Sample.db None None true) 1%nat =
  Some (-1, Sample.db None None true, [], []).
Proof.
  apply (proj1
    (replica_result_too_small "monitor01" Sample.bounded_copy 128
       Sample.env_narrow (Sample.db None None true) 1%nat
       {| num_fields := 16; rows := [repeat (Some "x") 16] |} eq_refl)).
  right. reflexivity.
Defined.

Lemma replica_health_step_witness :
    replica_notif_block "monitor01" Sample.bounded_copy 128 Sample.env
      (fst (replica_notif_block "monitor01" Sample.bounded_copy 128 Sample.env
              (Sample.db None None true)
              (Sample.slave_row (Some "No") (Some "Yes"))))
      (Sample.slave_row (Some "No") (Some "Yes"))
    = (fst (replica_notif_block "monitor01" Sample.bounded_copy 128 Sample.env
              (Sample.db None None true)
              (Sample.slave_row (Some "No") (Some "Yes"))), []).
Proof.
  destruct (proj1
    (replica_health_step "monitor01" Sample.bounded_copy 128 Sample.env
       (Sample.db None None true)
       (Sample.slave_row (Some "No") (Some "Yes"))) eq_refl)
    as (io_out & sql_out & _ & _ & _ & Hreplay).
  exact (Hreplay Sample.env).
Defined.

(** With replica notifications switched off, a replica whose I/O thread is
    observed not running while the stored flag is set gets no warning and
    keeps its flag: the transition rule does not hold for this instance. *)
Lemma replica_health_step_counterexample :
  ~ (exists io_out sql_out,
       snd (replica_notif_block "monitor01" Sample.bounded_copy 128 Sample.env
              (Sample.db None None false)
              (Sample.slave_row (Some "No") (Some "Yes")))
       = io_out ++ sql_out /\
       flag_transition
         (is_yes (cell (Sample.slave_row (Some "No") (Some "Yes"))
                    SLAVE_IO_RUNNING_IDX))
         (replica_io_running (Sample.db None None false))
         (replica_io_running
            (fst (replica_notif_block "monitor01" Sample.bounded_copy 128
                    Sample.env (Sample.db None None false)
                    (Sample.slave_row (Some "No") (Some "Yes")))))
         (map severity_and_message io_out)
         "replica I/O thread not started or not connected to primary"
         "replica I/O thread started and connected to primary").
Proof.
  intros (io_out & sql_out & _ & Hio & _).
  destruct (Hio eq_refl eq_refl) as [_ Hflag].
  discriminate Hflag.
Qed.

Lemma failed_handshake_witness :
  exists db' calls,
    getconnection Sample.env_refusing (Sample.db None None true)
    = Some (db', None, calls) /\
    is_connected db' = false /\ con db' = Some 1%nat.
Proof.
  destruct (failed_handshake Sample.env_refusing (Sample.db None None true)
              1%nat)
    as (db' & calls & Hget & Hc & Hcon & _).
  - intros H. discriminate H.
  - reflexivity.
  - reflexivity.
  - exists db', calls. repeat split; assumption.
Defined.

(** After a refused handshake the instance still holds the session object
    of the attempt; its handle is not unset. *)
Lemma failed_handshake_counterexample :
  ~ (exists db' calls,
       getconnection Sample.env_refusing (Sample.db None None true)
       = Some (db', None, calls) /\
       con db' = None).
Proof.
  intros (db' & calls & Hget & Hcon).
  vm_compute in Hget. injection Hget as <- _. discriminate Hcon.
Qed.

Lemma optional_reader_failure_contained_witness :
  exists r',
    mysql_read "monitor01" Sample.bounded_copy 128
      (fail_query Sample.env (optional_statement 50730 reader_innodb))
      (Sample.db None None true) = Some r' /\
    ret r' = 0.
Proof.
  assert (E : exists r,
             mysql_read "monitor01" Sample.bounded_copy 128 Sample.env
               (Sample.db None None true) = Some r)
    by (vm_compute; eexists; reflexivity).
  destruct E as (r & Hread).
  destruct (optional_reader_failure_contained "monitor01" Sample.bounded_copy
              128 Sample.env (Sample.db None None true)
              (set_connection (Sample.db None None true) (Some 1%nat) true
                 50730)
              r 1%nat [call_init; call_ssl_set 1%nat; call_real_connect 1%nat]
              Sample.global_status Hread eq_refl eq_refl)
    as (_ & main & inno & prim & repl & wsr & _ & _ & _ & _ & _ & Hfail).
  destruct (Hfail reader_innodb) as (r' & Hread' & Hret' & _).
  exists r'. split; assumption.
Defined.

(** ** The further theorems at the example data *)

Lemma getconnection_invariant_witness :
  exists db' p calls,
    getconnection Sample.env (Sample.db None None true)
    = Some (db', p, calls).
Proof.
  destruct (getconnection_invariant Sample.env (Sample.db None None true))
    as (db' & p & calls & Hget & _).
  - intros H. discriminate H.
  - exists db', p, calls. exact Hget.
Defined.

Lemma getconnection_reuse_witness :
  getconnection Sample.env Sample.connected
  = Some (Sample.connected, Some 1%nat, [call_ping 1%nat]).
Proof.
  apply (getconnection_reuse Sample.env Sample.env (Sample.db None None true)
           Sample.connected 1%nat
           [call_init; call_ssl_set 1%nat; call_real_connect 1%nat]);
    reflexivity.
Defined.

Lemma getconnection_frame_witness :
  set_connection Sample.connected None false 0 = Sample.db None None true.
Proof.
  apply (proj1 (getconnection_frame Sample.env (Sample.db None None true)
                  Sample.connected (Some 1%nat)
                  [call_init; call_ssl_set 1%nat; call_real_connect 1%nat]
                  eq_refl)).
Defined.

Lemma sessions_closed_witness :
  count_calls is_close
    ([call_init; call_ssl_set 1%nat; call_real_connect 1%nat;
      call_close 1%nat; call_init; call_ssl_set 1%nat;
      call_real_connect 1%nat]
     ++ mysql_database_free Sample.connected) = 2%nat.
Proof.
  rewrite <- (sessions_closed [Sample.env_refusing; Sample.env]
                (Sample.db None None true) Sample.connected
                [call_init; call_ssl_set 1%nat; call_real_connect 1%nat;
                 call_close 1%nat; call_init; call_ssl_set 1%nat;
                 call_real_connect 1%nat] eq_refl).
  reflexivity.
Defined.


Lemma replica_stats_values_witness :
  exists db' vals notifs,
    mysql_read_replica_stats "monitor01" Sample.bounded_copy 128 Sample.env
      Sample.connected 1%nat = Some (0, db', vals, notifs) /\
    List.length (map vl_values vals) = 4%nat.
Proof.
  destruct (replica_stats_values "monitor01" Sample.bounded_copy 128
              Sample.env Sample.connected 1%nat
              {| num_fields := 33;
                 rows := [Sample.slave_row (Some "No") (Some "Yes")] |}
              (Sample.slave_row (Some "No") (Some "Yes")) [] "1500" "1400"
              eq_refl eq_refl)
    as (db' & vals & notifs & Hread & Hvals & _);
    try reflexivity; try discriminate.
  exists db', vals, notifs. split; [exact Hread|].
  rewrite Hvals. reflexivity.
Defined.

Lemma replica_flags_follow_observation_witness :
  replica_io_running
    (fst (replica_notif_block "monitor01" Sample.bounded_copy 128 Sample.env
            (Sample.db None None true)
            (Sample.slave_row (Some "No") (Some "Yes")))) = false.
Proof.
  apply (proj1 (replica_flags_follow_observation "monitor01"
                  Sample.bounded_copy 128 Sample.env
                  (Sample.db None None true)
                  (Sample.slave_row (Some "No") (Some "Yes")) eq_refl)).
Defined.



Lemma innodb_stats_count_witness :
  List.length
    [derive_submit "monitor01" Sample.bounded_copy 128 "operations"
       (Some "dml_reads") 9 Sample.connected]
  = rows_in_table innodb_metrics
      [[Some "dml_reads"; Some "9"; Some "counter"]].
Proof.
  apply (proj2 (innodb_stats_count "monitor01" Sample.bounded_copy 128
                  Sample.env Sample.connected 1%nat 0
                  [derive_submit "monitor01" Sample.bounded_copy 128
                     "operations" (Some "dml_reads") 9 Sample.connected]
                  eq_refl)).
Defined.

Lemma mysql_read_frame_witness :
  exists r,
    mysql_read "monitor01" Sample.bounded_copy 128 Sample.env_refusing
      (Sample.db None None true) = Some r /\
    dispatched r = [] /\ notified r = [].
Proof.
  assert (E : exists r,
             mysql_read "monitor01" Sample.bounded_copy 128
               Sample.env_refusing (Sample.db None None true) = Some r
             /\ ret r = -1)
    by (vm_compute; eexists; split; reflexivity).
  destruct E as (r & Hread & Hret).
  destruct (mysql_read_frame "monitor01" Sample.bounded_copy 128
              Sample.env_refusing (Sample.db None None true) r Hread)
    as (db0 & p & _ & _ & _ & Hfail & _).
  destruct (Hfail Hret) as (Hd & Hn & _).
  exists r. repeat split; assumption.
Defined.

Lemma unrecognised_row_ignored_witness :
  status_row "monitor01" Sample.bounded_copy 128 Sample.connected
    [Some "Aborted_clients"; Some "3"] read_acc_init
  = Some (read_acc_init, []).
Proof.
  apply (unrecognised_row_ignored "monitor01" Sample.bounded_copy 128
           Sample.connected "Aborted_clients" "3" [] read_acc_init eq_refl).
Defined.

Lemma status_rows_values_witness :
  exists a out,
    status_rows "monitor01" Sample.bounded_copy 128 Sample.connected
      (rows Sample.global_status) read_acc_init = Some (a, out) /\
    (List.length out <= 4)%nat.
Proof.
  assert (E : exists a out,
             status_rows "monitor01" Sample.bounded_copy 128 Sample.connected
               (rows Sample.global_status) read_acc_init = Some (a, out))
    by (vm_compute; do 2 eexists; reflexivity).
  destruct E as (a & out & Hrows).
  exists a, out. split; [exact Hrows|].
  apply (proj1 (status_rows_values "monitor01" Sample.bounded_copy 128
                  Sample.connected (rows Sample.global_status)
                  read_acc_init a out Hrows)).
Defined.


Lemma traffic_totals_witness :
  exists a out,
    status_rows "monitor01" Sample.bounded_copy 128 Sample.connected
      [ [Some "Bytes_sent"; Some "1000"]; [Some "Com_select"; Some "5"];
        [Some "Bytes_sent"; Some "24"] ] read_acc_init = Some (a, out) /\
    traffic_outgoing a = 1024.
Proof.
  assert (E : exists a out,
             status_rows "monitor01" Sample.bounded_copy 128 Sample.connected
               [ [Some "Bytes_sent"; Some "1000"];
                 [Some "Com_select"; Some "5"];
                 [Some "Bytes_sent"; Some "24"] ] read_acc_init
             = Some (a, out))
    by (vm_compute; do 2 eexists; reflexivity).
  destruct E as (a & out & Hrows).
  exists a, out. split; [exact Hrows|].
  apply (proj2 (traffic_totals "monitor01" Sample.bounded_copy 128
                  Sample.connected _ a out Hrows)).
Defined.

Lemma threads_batch_witness :
  exists a out,
    status_rows "monitor01" Sample.bounded_copy 128 Sample.connected
      [ [Some "Threads_created"; Some "5"];
        [Some "Threads_running"; Some "2"] ] read_acc_init = Some (a, out) /\
    threads_block "monitor01" Sample.bounded_copy 128 Sample.connected a
    <> [].
Proof.
  assert (E : exists a out,
             status_rows "monitor01" Sample.bounded_copy 128 Sample.connected
               [ [Some "Threads_created"; Some "5"];
                 [Some "Threads_running"; Some "2"] ] read_acc_init
             = Some (a, out))
    by (vm_compute; do 2 eexists; reflexivity).
  destruct E as (a & out & Hrows).
  exists a, out. split; [exact Hrows|].
  apply (proj1 (threads_batch "monitor01" Sample.bounded_copy 128
                  Sample.connected _ a out Hrows)).
  exists 5. split; [reflexivity | discriminate].
Defined.


Lemma config_database_outcome_witness :
  mysql_config_database 128 Sample.helpers Sample.misspelt_block
  = Some (-1, None) /\ -1 <> 0.
Proof.
  split; [reflexivity|].
  apply (proj2 (proj2
           (config_database_outcome 128 Sample.helpers Sample.misspelt_block
              (-1) None eq_refl))).
  exists (oconfig_item "Hots" [OCONFIG_TYPE_STRING "10.0.0.6"] []).
  split; [left; reflexivity | reflexivity].
Defined.

Lemma registered_instance_witness :
  cb_name {| cb_name := "mysql-db1"; cb_data := Sample.configured |}
  = "mysql-db1" /\
  replica_io_running Sample.configured = true /\
  is_connected Sample.configured = false.
Proof.
  destruct (registered_instance 128 Sample.helpers Sample.database_block 0
              {| cb_name := "mysql-db1"; cb_data := Sample.configured |}
              eq_refl)
    as (_ & Hname & Hio & _ & _ & Hc & _).
  repeat split; assumption.
Defined.

Lemma config_registrations_witness :
  exists child,
    In child (ci_children Sample.plugin_block) /\
    strcasecmp "Database" (ci_key child) = 0 /\
    exists st,
      mysql_config_database 128 Sample.helpers child
      = Some (st, Some {| cb_name := "mysql-db1";
                          cb_data := Sample.configured |}).
Proof.
  apply (proj1 (proj1 (proj2
           (config_registrations 128 Sample.helpers Sample.plugin_block 0
              [{| cb_name := "mysql-db1"; cb_data := Sample.configured |}]
              eq_refl))
           {| cb_name := "mysql-db1"; cb_data := Sample.configured |})).
  left. reflexivity.
Defined.

Lemma qcache_batch_rows_witness :
  exists a out,
    status_rows "monitor01" Sample.bounded_copy 128 Sample.connected
      [ [Some "Qcache_queries_in_cache"; Some "12"];
        [Some "Qcache_hits"; Some "7"] ] read_acc_init = Some (a, out) /\
    qcache_block "monitor01" Sample.bounded_copy 128 Sample.connected a
    <> [].
Proof.
  assert (E : exists a out,
             status_rows "monitor01" Sample.bounded_copy 128 Sample.connected
               [ [Some "Qcache_queries_in_cache"; Some "12"];
                 [Some "Qcache_hits"; Some "7"] ] read_acc_init
             = Some (a, out))
    by (vm_compute; do 2 eexists; reflexivity).
  destruct E as (a & out & Hrows).
  exists a, out. split; [exact Hrows|].
  apply (proj2 (qcache_batch_rows "monitor01" Sample.bounded_copy 128
                  Sample.connected _ a out Hrows)).
  exists "Qcache_hits", 7. split; [left; reflexivity|].
  split; [reflexivity | discriminate].
Defined.

Lemma replica_switches_witness :
  exists status db' vals notifs,
    mysql_read_replica_stats "monitor01" Sample.bounded_copy 128 Sample.env
      (Sample.db None None false) 1%nat = Some (status, db', vals, notifs) /\
    notifs = [] /\ db' = Sample.db None None false.
Proof.
  assert (E : exists status db' vals notifs,
             mysql_read_replica_stats "monitor01" Sample.bounded_copy 128
               Sample.env (Sample.db None None false) 1%nat
             = Some (status, db', vals, notifs))
    by (vm_compute; do 4 eexists; reflexivity).
  destruct E as (status & db' & vals & notifs & Hread).
  exists status, db', vals, notifs. split; [exact Hread|].
  apply (proj1 (proj2
           (replica_switches "monitor01" Sample.bounded_copy 128 Sample.env
              (Sample.db None None false) db' 1%nat status vals notifs
              Hread))).
  reflexivity.
Defined.
